(** * ID100 utility, application layer (src/app.c)

    A shallow embedding of the command driver of the ID100 clock: the
    send-and-receive primitive, the 16-bit endianness macro, the PPM limit
    and the catalogue of request/response operations built on them.

    Conventions of the embedding.
    - A [uint8_t] or [uint16_t] variable is a [Z]; the truncation that a C
      assignment performs is written out with [uint16].
    - An object in host memory (a struct, an array, a scalar passed by
      address) is the list of its bytes, lowest address first.  A 16-bit
      field is read and written through [load_u16] and [store_u16], which
      depend on the byte order of the host.
    - The link layer (link.h) is outside this file of the repository; it
      is represented by a simulated transport that logs the frames handed
      to it and answers through an arbitrary device function.
    - [ExitWithError] (utils.h) ends the process; an operation therefore
      either returns a value or exits with an error, and both outcomes
      keep the state of the link at that moment. *)

From Stdlib Require Import ZArith Bool Ascii Lia.
From Stdlib Require Import Floats.SpecFloat.
From stdpp Require Import base list.

Local Open Scope Z_scope.

(** ** Fixed-width integers and bytes *)

Definition uint16 (z : Z) : Z := z mod 65536.

Definition is_byte (b : Z) : bool := (0 <=? b) && (b <? 256).
Definition is_uint16 (v : Z) : bool := (0 <=? v) && (v <? 65536).

(** An object representation is well formed when each cell holds a byte. *)
Definition bytes_ok (mem : list Z) : bool := forallb is_byte mem.

(** The value of a 16-bit field in wire order: high byte first. *)
Definition wire_u16 (hi lo : Z) : Z := hi * 256 + lo.

(** ** The endianness macro and 16-bit objects in host memory *)

Section Host.

(** [__BYTE_ORDER__ == __ORDER_BIG_ENDIAN__] on the machine the utility
    is compiled for. *)
Variable host_big_endian : bool.

(** [#define APP_SWAP_ENDIAN_16(num) ((num) = ((num) << 8) | ((num) >> 8))],
    empty on a big-endian host.  The macro assigns to a [uint16_t]
    lvalue, so the result is truncated to 16 bits. *)
Definition APP_SWAP_ENDIAN_16 (num : Z) : Z :=
  if host_big_endian then num
  else uint16 (Z.lor (Z.shiftl num 8) (Z.shiftr num 8)).

(** Reading the [uint16_t] object at byte offset [off] of [mem]. *)
Definition load_u16 (mem : list Z) (off : nat) : Z :=
  let b0 := default 0 (mem !! off) in
  let b1 := default 0 (mem !! S off) in
  if host_big_endian then b0 * 256 + b1 else b0 + b1 * 256.

(** Writing the [uint16_t] value [v] at byte offset [off] of [mem]. *)
Definition store_u16 (mem : list Z) (off : nat) (v : Z) : list Z :=
  if host_big_endian
  then <[off := v / 256]> (<[S off := v mod 256]> mem)
  else <[off := v mod 256]> (<[S off := v / 256]> mem).

(** The macro applied to a 16-bit field of an object in memory. *)
Definition swap_field (mem : list Z) (off : nat) : list Z :=
  store_u16 mem off (APP_SWAP_ENDIAN_16 (load_u16 mem off)).

(** The object representation of a [uint16_t] variable. *)
Definition u16_bytes (v : Z) : list Z := store_u16 [0; 0] 0 v.

End Host.

(** A 16-bit field of a payload read in wire order, high byte first. *)
Definition wire_field (payload : list Z) (off : nat) : Z :=
  load_u16 true payload off.

(** ** The link layer and the outcome of an operation *)

(** A command handed to [LinkSendCommandAndBuffer]: the tag, the buffer
    and the length given with it. *)
Record frame := Frame { f_command : Z; f_buf : list Z; f_len : Z }.

(** What the device answers: a tag and the bytes of the payload. *)
Record reply := Reply { r_command : Z; r_payload : list Z }.

(** The simulated transport: the frames sent so far and the device, which
    answers from everything it has been sent. *)
Record link := Link { sent : list frame; device : list frame -> reply }.

(** The three messages [ExitWithError] is called with in app.c, each with
    the value it prints. *)
Inductive error :=
| InvalidAnswerCommand (recvCmd : Z)   (* "Invalid answer command received: '%c'" *)
| InvalidLength (recvLength : Z)       (* "Invalid length received: %u" *)
| BadPageNumber (pageNumber : Z).      (* "Bad page number received: %u" *)

Inductive outcome (A : Type) :=
| Return (a : A) (l : link)
| Exit (e : error) (l : link).
Arguments Return {A} a l.
Arguments Exit {A} e l.

Definition App (A : Type) : Type := link -> outcome A.

Definition ret {A} (a : A) : App A := fun l => Return a l.

Definition bind {A B} (m : App A) (k : A -> App B) : App B :=
  fun l => match m l with
           | Return a l' => k a l'
           | Exit e l' => Exit e l'
           end.

Declare Scope app_scope.
Delimit Scope app_scope with app.
Notation "x <- m ;; k" := (bind m (fun x => k))
  (at level 100, m at next level, right associativity) : app_scope.
Notation "m ;; k" := (bind m (fun _ => k))
  (at level 100, right associativity) : app_scope.
Local Open Scope app_scope.

(** The state of the link an operation ends in, returning or exiting. *)
Definition link_of {A} (o : outcome A) : link :=
  match o with
  | Return _ l => l
  | Exit _ l => l
  end.

(** [ExitWithError] of utils.h: the process ends with the message. *)
Definition ExitWithError {A} (e : error) : App A := fun l => Exit e l.

(** Modelled from the spec: [LinkSendCommandAndBuffer] of the link layer,
    which is not part of app.c.  "send a tagged buffer": the frame joins
    the frames sent. *)
Definition LinkSendCommandAndBuffer (command : Z) (buf : list Z) (len : Z)
  : App unit :=
  fun l => Return tt (Link (sent l ++ [Frame command buf len]) (device l)).

(** Modelled from the spec: [LinkReceiveCommandAndBuffer] of the link
    layer, which is not part of app.c.  "receive a tagged buffer into a
    caller-supplied region, returning the tag and length actually
    received": the result is the tag of the answer, the contents of the
    region and the number of payload bytes the device sent. *)
Definition LinkReceiveCommandAndBuffer (recvBufLen : Z)
  : App (Z * list Z * Z) :=
  fun l =>
    let r := device l (sent l) in
    Return (r_command r,
            take (Z.to_nat recvBufLen) (r_payload r),
            Z.of_nat (length (r_payload r))) l.

(** [static void AppSendAndReceive(command, sendBuf, sendBufLen, recvBuf,
    recvBufLen)]; the value returned is the contents of [recvBuf]. *)
Definition AppSendAndReceive (command : Z) (sendBuf : list Z) (sendBufLen : Z)
    (recvBufLen : Z) : App (list Z) :=
  LinkSendCommandAndBuffer command sendBuf sendBufLen ;;
  answer <- LinkReceiveCommandAndBuffer recvBufLen ;;
  let '(recvCmd, recvBuf, recvLength) := answer in
  (if negb (recvCmd =? command)
   then ExitWithError (InvalidAnswerCommand recvCmd) else ret tt) ;;
  (if negb (recvLength =? recvBufLen)
   then ExitWithError (InvalidLength recvLength) else ret tt) ;;
  ret recvBuf.

(** A character constant as the [uint8_t] command it is passed as. *)
Definition chr (c : Ascii.ascii) : Z := Z.of_N (Ascii.N_of_ascii c).

(** ** What app.c takes from app.h *)

(** The sizes of the types declared in app.h, the offsets of the two
    [pageNumber] fields app.c reaches into, and the object representation
    of the calibration value as it lies in the memory of the host the
    header is compiled for.  The header is not part of this file of the
    repository, so these are parameters of the operations.  Both
    [pageNumber] fields are [uint16_t] objects, the width the macro is
    written for. *)
Record app_h := {
  sizeof_AppDateTimeType : Z;
  sizeof_AppMatrixBitmapType : Z;
  sizeof_AppIntensityType : Z;
  sizeof_AppLastCalibrationType : Z;
  sizeof_AppRtcCalibrationValueType : Z;
  repr_AppRtcCalibrationValueType : spec_float -> list Z;
  sizeof_AppStandbyType : Z;
  sizeof_AppFlashConfigPageType : Z;
  offsetof_AppFlashConfigPageType_pageNumber : nat;
  sizeof_AppFlashClockConfigType : Z;
  offsetof_AppFlashClockConfigType_pageNumber : nat;
  sizeof_AppointmentsConfigType : Z
}.

(** Modelled from the spec: the declaration of [AppVersionType] in app.h.
    "three 16-bit fields (major, minor, revision)", a 6-byte response. *)
Definition sizeof_AppVersionType : Z := 6.
Definition offsetof_major : nat := 0.
Definition offsetof_minor : nat := 2.
Definition offsetof_revision : nat := 4.

(** [sizeof(uint16_t)] *)
Definition sizeof_uint16_t : Z := 2.

(** ** The PPM limit *)

(** [#define APP_PPM_LIMIT 189.0f].  Modelled from the spec: the
    declaration of [AppRtcCalibrationValueType] in app.h, "a floating-point
    PPM offset"; it is taken as IEEE binary32, the type of the constant.
    189 = 12386304 * 2^-16 with a 24-bit significand. *)
Definition APP_PPM_LIMIT : spec_float := S754_finite false 12386304 (-16).

(** The value of [ppmDifference] after the [if]/[else if] of
    [AppSetRtcCalibration]; [>] and [<] are the IEEE comparisons. *)
Definition limit_ppm (ppmDifference : spec_float) : spec_float :=
  if SFltb APP_PPM_LIMIT ppmDifference then APP_PPM_LIMIT
  else if SFltb ppmDifference (SFopp APP_PPM_LIMIT) then SFopp APP_PPM_LIMIT
  else ppmDifference.

(** The binary32 value of an integer. *)
Definition binary32_of_Z (z : Z) : spec_float := binary_normalize 24 128 z 0 false.

(** 250.0 and 10.0 as binary32 values. *)
Definition ppm_250 : spec_float := S754_finite false 16384000 (-16).
Definition ppm_10 : spec_float := S754_finite false 10485760 (-20).

Definition is_nan (f : spec_float) : bool :=
  match f with
  | S754_nan => true
  | _ => false
  end.

(** ** The operations of app.c *)

(** What an operation leaves to its caller: nothing, or the contents of
    the object it was given a pointer to (or returns by value). *)
Inductive result :=
| RVoid
| RObject (mem : list Z).

Section Operations.

Variable host_big_endian : bool.
Variable h : app_h.

Abbreviation SWAP := (APP_SWAP_ENDIAN_16 host_big_endian).
Abbreviation load := (load_u16 host_big_endian).
Abbreviation swap_at := (swap_field host_big_endian).

(** [void AppGetVersion(AppVersionType *version)] *)
Definition AppGetVersion : App (list Z) :=
  version <- AppSendAndReceive (chr "v") [] 0 (uint16 sizeof_AppVersionType) ;;
  let version := swap_at version offsetof_major in
  let version := swap_at version offsetof_minor in
  let version := swap_at version offsetof_revision in
  ret version.

(** [void AppGetDateTime(AppDateTimeType *dateTime)] *)
Definition AppGetDateTime : App (list Z) :=
  AppSendAndReceive (chr "t") [] 0 (uint16 (sizeof_AppDateTimeType h)).

(** [void AppSetDateTime(const AppDateTimeType *dateTime)] *)
Definition AppSetDateTime (dateTime : list Z) : App unit :=
  AppSendAndReceive (chr "T") dateTime (uint16 (sizeof_AppDateTimeType h)) 0 ;;
  ret tt.

(** [void AppSetNormalMode(void)] *)
Definition AppSetNormalMode : App unit :=
  AppSendAndReceive (chr "A") [] 0 0 ;; ret tt.

(** [void AppSetPreviewMode(void)] *)
Definition AppSetPreviewMode : App unit :=
  AppSendAndReceive (chr "a") [] 0 0 ;; ret tt.

(** [void AppFactoryReset(void)] *)
Definition AppFactoryReset : App unit :=
  AppSendAndReceive (chr "X") [] 0 0 ;; ret tt.

(** [void AppActivateBootloader(void)] *)
Definition AppActivateBootloader : App unit :=
  AppSendAndReceive (chr "!") [] 0 0 ;; ret tt.

(** [void AppSetPreviewMatrix(const AppMatrixBitmapType matrix)] *)
Definition AppSetPreviewMatrix (matrix : list Z) : App unit :=
  AppSendAndReceive (chr "D") matrix (uint16 (sizeof_AppMatrixBitmapType h)) 0 ;;
  ret tt.

(** [AppIntensityType AppGetIntensity()] *)
Definition AppGetIntensity : App (list Z) :=
  intensity <- AppSendAndReceive (chr "b") [] 0 (uint16 (sizeof_AppIntensityType h)) ;;
  ret intensity.

(** [void AppSetIntensity(const AppIntensityType intensity)] *)
Definition AppSetIntensity (intensity : list Z) : App unit :=
  AppSendAndReceive (chr "B") intensity (uint16 (sizeof_AppIntensityType h)) 0 ;;
  ret tt.

(** [void AppGetLastCalibration(AppLastCalibrationType *lastCalibration)] *)
Definition AppGetLastCalibration : App (list Z) :=
  AppSendAndReceive (chr "c") [] 0 (uint16 (sizeof_AppLastCalibrationType h)).

(** [void AppSetRtcCalibration(AppRtcCalibrationValueType ppmDifference)] *)
Definition AppSetRtcCalibration (ppmDifference : spec_float) : App unit :=
  let ppmDifference := limit_ppm ppmDifference in
  AppSendAndReceive (chr "C") (repr_AppRtcCalibrationValueType h ppmDifference)
    (uint16 (sizeof_AppRtcCalibrationValueType h)) 0 ;;
  ret tt.

(** [void AppGetStandby(AppStandbyType *standby)] *)
Definition AppGetStandby : App (list Z) :=
  AppSendAndReceive (chr "s") [] 0 (uint16 (sizeof_AppStandbyType h)).

(** [void AppSetStandby(const AppStandbyType *standby)] *)
Definition AppSetStandby (standby : list Z) : App unit :=
  AppSendAndReceive (chr "S") standby (uint16 (sizeof_AppStandbyType h)) 0 ;;
  ret tt.

(** [void AppGetFlashConfigPage(uint16_t pageNumber,
    AppFlashConfigPageType *config)] *)
Definition AppGetFlashConfigPage (pageNumber : Z) : App (list Z) :=
  let off := offsetof_AppFlashConfigPageType_pageNumber h in
  let pageNumber := SWAP pageNumber in
  config <- AppSendAndReceive (chr "f") (u16_bytes host_big_endian pageNumber)
              (uint16 sizeof_uint16_t) (uint16 (sizeof_AppFlashConfigPageType h)) ;;
  let pageNumber := SWAP pageNumber in
  let config := swap_at config off in
  (if negb (load config off =? pageNumber)
   then ExitWithError (BadPageNumber (load config off)) else ret tt) ;;
  ret config.

(** [void AppEraseFlashConfigSector(uint16_t startPage)] *)
Definition AppEraseFlashConfigSector (startPage : Z) : App unit :=
  let startPage := SWAP startPage in
  pageErased <- AppSendAndReceive (chr "E") (u16_bytes host_big_endian startPage)
                  (uint16 sizeof_uint16_t) (uint16 sizeof_uint16_t) ;;
  let pageErased := SWAP (load pageErased 0) in
  let startPage := SWAP startPage in
  (if negb (pageErased =? startPage)
   then ExitWithError (BadPageNumber pageErased) else ret tt) ;;
  ret tt.

(** [void AppSetFlashClockConfig(AppFlashClockConfigType *config)];
    the value returned is the caller's record as the call leaves it. *)
Definition AppSetFlashClockConfig (config : list Z) : App (list Z) :=
  let off := offsetof_AppFlashClockConfigType_pageNumber h in
  let config := swap_at config off in
  pageNumber <- AppSendAndReceive (chr "F") config
                  (uint16 (sizeof_AppFlashClockConfigType h)) (uint16 sizeof_uint16_t) ;;
  let config := swap_at config off in
  let pageNumber := SWAP (load pageNumber 0) in
  (if negb (pageNumber =? load config off)
   then ExitWithError (BadPageNumber pageNumber) else ret tt) ;;
  ret config.

(** [void AppGetAppointments(AppointmentsConfigType appointments)] *)
Definition AppGetAppointments : App (list Z) :=
  AppSendAndReceive (chr "r") [] 0 (uint16 (sizeof_AppointmentsConfigType h)).

(** [void AppSetAppointments(const AppointmentsConfigType appointments)] *)
Definition AppSetAppointments (appointments : list Z) : App unit :=
  AppSendAndReceive (chr "R") appointments
    (uint16 (sizeof_AppointmentsConfigType h)) 0 ;;
  ret tt.

(** *** The catalogue *)

(** One constructor for each request/response operation, with the
    arguments of its call. *)
Inductive operation :=
| GetVersion
| GetDateTime
| SetDateTime (dateTime : list Z)
| SetNormalMode
| SetPreviewMode
| FactoryReset
| ActivateBootloader
| SetPreviewMatrix (matrix : list Z)
| GetIntensity
| SetIntensity (intensity : list Z)
| GetLastCalibration
| SetRtcCalibration (ppmDifference : spec_float)
| GetStandby
| SetStandby (standby : list Z)
| GetFlashConfigPage (pageNumber : Z)
| EraseFlashConfigSector (startPage : Z)
| SetFlashClockConfig (config : list Z)
| GetAppointments
| SetAppointments (appointments : list Z).

Definition object (m : App (list Z)) : App result :=
  mem <- m ;; ret (RObject mem).

Definition void (m : App unit) : App result :=
  m ;; ret RVoid.

(** Calling the operation. *)
Definition run (op : operation) : App result :=
  match op with
  | GetVersion => object AppGetVersion
  | GetDateTime => object AppGetDateTime
  | SetDateTime dateTime => void (AppSetDateTime dateTime)
  | SetNormalMode => void AppSetNormalMode
  | SetPreviewMode => void AppSetPreviewMode
  | FactoryReset => void AppFactoryReset
  | ActivateBootloader => void AppActivateBootloader
  | SetPreviewMatrix matrix => void (AppSetPreviewMatrix matrix)
  | GetIntensity => object AppGetIntensity
  | SetIntensity intensity => void (AppSetIntensity intensity)
  | GetLastCalibration => object AppGetLastCalibration
  | SetRtcCalibration ppmDifference => void (AppSetRtcCalibration ppmDifference)
  | GetStandby => object AppGetStandby
  | SetStandby standby => void (AppSetStandby standby)
  | GetFlashConfigPage pageNumber => object (AppGetFlashConfigPage pageNumber)
  | EraseFlashConfigSector startPage => void (AppEraseFlashConfigSector startPage)
  | SetFlashClockConfig config => object (AppSetFlashClockConfig config)
  | GetAppointments => object AppGetAppointments
  | SetAppointments appointments => void (AppSetAppointments appointments)
  end.

End Operations.

(** *** The catalogue as a table *)

(** The literal command tag of each operation. *)
Definition op_command (op : operation) : Z :=
  match op with
  | GetVersion => chr "v"
  | GetDateTime => chr "t"
  | SetDateTime _ => chr "T"
  | SetNormalMode => chr "A"
  | SetPreviewMode => chr "a"
  | FactoryReset => chr "X"
  | ActivateBootloader => chr "!"
  | SetPreviewMatrix _ => chr "D"
  | GetIntensity => chr "b"
  | SetIntensity _ => chr "B"
  | GetLastCalibration => chr "c"
  | SetRtcCalibration _ => chr "C"
  | GetStandby => chr "s"
  | SetStandby _ => chr "S"
  | GetFlashConfigPage _ => chr "f"
  | EraseFlashConfigSector _ => chr "E"
  | SetFlashClockConfig _ => chr "F"
  | GetAppointments => chr "r"
  | SetAppointments _ => chr "R"
  end.

(** The response length each operation passes as [recvBufLen]. *)
Definition op_recv_len (h : app_h) (op : operation) : Z :=
  match op with
  | GetVersion => uint16 sizeof_AppVersionType
  | GetDateTime => uint16 (sizeof_AppDateTimeType h)
  | GetIntensity => uint16 (sizeof_AppIntensityType h)
  | GetLastCalibration => uint16 (sizeof_AppLastCalibrationType h)
  | GetStandby => uint16 (sizeof_AppStandbyType h)
  | GetFlashConfigPage _ => uint16 (sizeof_AppFlashConfigPageType h)
  | EraseFlashConfigSector _ => uint16 sizeof_uint16_t
  | SetFlashClockConfig _ => uint16 sizeof_uint16_t
  | GetAppointments => uint16 (sizeof_AppointmentsConfigType h)
  | SetDateTime _ | SetNormalMode | SetPreviewMode | FactoryReset
  | ActivateBootloader | SetPreviewMatrix _ | SetIntensity _
  | SetRtcCalibration _ | SetStandby _ | SetAppointments _ => 0
  end.

(** The frame each operation hands to the link layer. *)
Definition op_frame (be : bool) (h : app_h) (op : operation) : frame :=
  match op with
  | GetVersion | GetDateTime | SetNormalMode | SetPreviewMode | FactoryReset
  | ActivateBootloader | GetIntensity | GetLastCalibration | GetStandby
  | GetAppointments => Frame (op_command op) [] 0
  | SetDateTime dateTime =>
      Frame (chr "T") dateTime (uint16 (sizeof_AppDateTimeType h))
  | SetPreviewMatrix matrix =>
      Frame (chr "D") matrix (uint16 (sizeof_AppMatrixBitmapType h))
  | SetIntensity intensity =>
      Frame (chr "B") intensity (uint16 (sizeof_AppIntensityType h))
  | SetRtcCalibration ppmDifference =>
      Frame (chr "C") (repr_AppRtcCalibrationValueType h (limit_ppm ppmDifference))
        (uint16 (sizeof_AppRtcCalibrationValueType h))
  | SetStandby standby =>
      Frame (chr "S") standby (uint16 (sizeof_AppStandbyType h))
  | GetFlashConfigPage pageNumber =>
      Frame (chr "f") (u16_bytes be (APP_SWAP_ENDIAN_16 be pageNumber))
        (uint16 sizeof_uint16_t)
  | EraseFlashConfigSector startPage =>
      Frame (chr "E") (u16_bytes be (APP_SWAP_ENDIAN_16 be startPage))
        (uint16 sizeof_uint16_t)
  | SetFlashClockConfig config =>
      Frame (chr "F")
        (swap_field be config (offsetof_AppFlashClockConfigType_pageNumber h))
        (uint16 (sizeof_AppFlashClockConfigType h))
  | SetAppointments appointments =>
      Frame (chr "R") appointments (uint16 (sizeof_AppointmentsConfigType h))
  end.

(** The state of the link once the operation has sent its frame, and what
    the device then answers. *)
Definition after_send (be : bool) (h : app_h) (op : operation) (st : link) : link :=
  Link (sent st ++ [op_frame be h op]) (device st).

Definition answer (be : bool) (h : app_h) (op : operation) (st : link) : reply :=
  device st (sent st ++ [op_frame be h op]).

Definition answer_len (be : bool) (h : app_h) (op : operation) (st : link) : Z :=
  Z.of_nat (length (r_payload (answer be h op st))).

(** Every operation goes through the primitive once, with the tag, the
    frame and the response length of the table; what follows the
    primitive is [finish]. *)
Definition finish (be : bool) (h : app_h) (op : operation) (recvBuf : list Z)
  : App result :=
  match op with
  | GetVersion =>
      ret (RObject (swap_field be (swap_field be (swap_field be recvBuf
             offsetof_major) offsetof_minor) offsetof_revision))
  | GetDateTime | GetIntensity | GetLastCalibration | GetStandby
  | GetAppointments => ret (RObject recvBuf)
  | GetFlashConfigPage pageNumber =>
      let off := offsetof_AppFlashConfigPageType_pageNumber h in
      let config := swap_field be recvBuf off in
      if negb (load_u16 be config off
               =? APP_SWAP_ENDIAN_16 be (APP_SWAP_ENDIAN_16 be pageNumber))
      then ExitWithError (BadPageNumber (load_u16 be config off))
      else ret (RObject config)
  | EraseFlashConfigSector startPage =>
      let pageErased := APP_SWAP_ENDIAN_16 be (load_u16 be recvBuf 0) in
      if negb (pageErased
               =? APP_SWAP_ENDIAN_16 be (APP_SWAP_ENDIAN_16 be startPage))
      then ExitWithError (BadPageNumber pageErased)
      else ret RVoid
  | SetFlashClockConfig config =>
      let off := offsetof_AppFlashClockConfigType_pageNumber h in
      let config := swap_field be (swap_field be config off) off in
      let pageNumber := APP_SWAP_ENDIAN_16 be (load_u16 be recvBuf 0) in
      if negb (pageNumber =? load_u16 be config off)
      then ExitWithError (BadPageNumber pageNumber)
      else ret (RObject config)
  | _ => ret RVoid
  end.

(** The operations that pass no response buffer. *)
Definition no_response_payload (op : operation) : bool :=
  match op with
  | SetDateTime _ | SetNormalMode | SetPreviewMode | FactoryReset
  | ActivateBootloader | SetPreviewMatrix _ | SetIntensity _
  | SetRtcCalibration _ | SetStandby _ | SetAppointments _ => true
  | _ => false
  end.

(** ** Echo of the page number *)

(** The operations that compare a page number of the response with the
    page number of the request. *)
Definition checks_echo (op : operation) : bool :=
  match op with
  | GetFlashConfigPage _ | EraseFlashConfigSector _ | SetFlashClockConfig _ => true
  | _ => false
  end.

(** The page number the caller asks for, in host order. *)
Definition requested_page (be : bool) (h : app_h) (op : operation) : Z :=
  match op with
  | GetFlashConfigPage pageNumber => pageNumber
  | EraseFlashConfigSector startPage => startPage
  | SetFlashClockConfig config =>
      load_u16 be config (offsetof_AppFlashClockConfigType_pageNumber h)
  | _ => 0
  end.

(** The page number the device put into its answer, in wire order. *)
Definition echoed_page (h : app_h) (op : operation) (payload : list Z) : Z :=
  match op with
  | GetFlashConfigPage _ =>
      wire_field payload (offsetof_AppFlashConfigPageType_pageNumber h)
  | EraseFlashConfigSector _ | SetFlashClockConfig _ => wire_field payload 0
  | _ => 0
  end.

(** The arguments fit their C types: a page number is a [uint16_t], the
    [pageNumber] fields lie inside their records, and a record passed in
    is an object of bytes. *)
Definition args_ok (be : bool) (h : app_h) (op : operation) : bool :=
  match op with
  | GetFlashConfigPage pageNumber =>
      is_uint16 pageNumber
      && (Z.of_nat (offsetof_AppFlashConfigPageType_pageNumber h) + 2
          <=? uint16 (sizeof_AppFlashConfigPageType h))
  | EraseFlashConfigSector startPage => is_uint16 startPage
  | SetFlashClockConfig config =>
      bytes_ok config
      && (offsetof_AppFlashClockConfigType_pageNumber h + 2 <=? length config)%nat
  | _ => true
  end.

(** What the caller of a successful operation holds, in terms of the
    payload the device sent: 16-bit fields arrive in host order, every
    other byte as it was sent. *)
Definition decodes (be : bool) (h : app_h) (op : operation) (payload : list Z)
    (res : result) : Prop :=
  match op with
  | GetVersion =>
      exists version, res = RObject version
        /\ load_u16 be version offsetof_major = wire_field payload offsetof_major
        /\ load_u16 be version offsetof_minor = wire_field payload offsetof_minor
        /\ load_u16 be version offsetof_revision
           = wire_field payload offsetof_revision
  | GetDateTime | GetIntensity | GetLastCalibration | GetStandby
  | GetAppointments => res = RObject payload
  | GetFlashConfigPage pageNumber =>
      let off := offsetof_AppFlashConfigPageType_pageNumber h in
      exists config, res = RObject config
        /\ load_u16 be config off = wire_field payload off
        /\ length config = length payload
        /\ forall i, i <> off -> i <> S off -> config !! i = payload !! i
  | SetFlashClockConfig config => res = RObject config
  | _ => res = RVoid
  end.

(** ** A simulated device on a little-endian host *)

Module Sim.

(** The byte order of the scenarios. *)
Definition little_endian_host : bool := false.

(** The bits of an IEEE binary32 value. *)
Definition binary32_bits (f : spec_float) : Z :=
  let sign (s : bool) := if s then 2147483648 else 0 in
  match f with
  | S754_zero s => sign s
  | S754_infinity s => sign s + 2139095040
  | S754_nan => 2143289344
  | S754_finite s m e =>
      sign s + (if 8388608 <=? Z.pos m
                then (e + 150) * 8388608 + (Z.pos m - 8388608)
                else Z.pos m)
  end.

(** Its four bytes in the memory of a little-endian host. *)
Definition binary32_bytes (f : spec_float) : list Z :=
  let b := binary32_bits f in
  [b mod 256; (b / 256) mod 256; (b / 65536) mod 256; (b / 16777216) mod 256].

(** A header with small objects: 16-bit page numbers at the start of
    the flash page and at offset 2 of the clock configuration. *)
Definition header : app_h := {|
  sizeof_AppDateTimeType := 7;
  sizeof_AppMatrixBitmapType := 7;
  sizeof_AppIntensityType := 1;
  sizeof_AppLastCalibrationType := 11;
  sizeof_AppRtcCalibrationValueType := 4;
  repr_AppRtcCalibrationValueType := binary32_bytes;
  sizeof_AppStandbyType := 4;
  sizeof_AppFlashConfigPageType := 6;
  offsetof_AppFlashConfigPageType_pageNumber := 0;
  sizeof_AppFlashClockConfigType := 6;
  offsetof_AppFlashClockConfigType_pageNumber := 2;
  sizeof_AppointmentsConfigType := 8
|}.

(** A link on which nothing has been sent, to a device that answers
    every request with the same reply. *)
Definition scripted (r : reply) : link := Link [] (fun _ => r).

(** A device that echoes the tag of the last frame with the payload
    given. *)
Definition echoing (payload : list Z) : link :=
  Link [] (fun frames => Reply (default 0 (f_command <$> last frames)) payload).

End Sim.

(** Concrete devices and records of the scenarios, on the little-endian
    host with the header above. *)
Module Scenario.

(** The device answers the version query with 1.2.3 in wire order. *)
Definition version_1_2_3 : link :=
  Sim.scripted (Reply (chr "v") [0; 1; 0; 2; 0; 3]).

(** The device answers a flash page request with page number 7. *)
Definition page_7 : link :=
  Sim.scripted (Reply (chr "f") [0; 7; 17; 18; 19; 20]).

(** The device answers a flash page request with page number 5. *)
Definition page_5 : link :=
  Sim.scripted (Reply (chr "f") [0; 5; 17; 18; 19; 20]).

(** The device answers with tag 'x' and page number 7. *)
Definition wrong_tag_page_7 : link :=
  Sim.scripted (Reply (chr "x") [0; 7; 17; 18; 19; 20]).

(** The device acknowledges the clock configuration of page 42. *)
Definition clock_page_42 : link :=
  Sim.scripted (Reply (chr "F") [0; 42]).

(** A clock configuration record of a little-endian host whose page
    number, at offset 2, is 42. *)
Definition clock_config_42 : list Z := [9; 8; 42; 0; 7; 6].

(** The device answers the version query with tag 'x'. *)
Definition wrong_tag_version : link :=
  Sim.scripted (Reply (chr "x") [0; 1; 0; 2; 0; 3]).

(** The device answers the version query with four bytes. *)
Definition short_version : link :=
  Sim.scripted (Reply (chr "v") [0; 1; 0; 2]).

(** The device answers with tag 'x' and one byte. *)
Definition wrong_tag_one_byte : link :=
  Sim.scripted (Reply (chr "x") [1]).

(** The device answers with tag 'x' and three bytes. *)
Definition wrong_tag_three_bytes : link :=
  Sim.scripted (Reply (chr "x") [0; 0; 7]).

(** The device acknowledges every command with its tag and no payload. *)
Definition acknowledging : link := Sim.echoing [].

End Scenario.

(** ** Further vocabulary for the catalogue *)

(** A device that sends back the tag and the buffer of the frame it
    received last. *)
Definition loopback : link :=
  Link [] (fun frames =>
             match last frames with
             | Some f => Reply (f_command f) (f_buf f)
             | None => Reply 0 []
             end).

(** The operation without the arguments of its call. *)
Definition forget_args (op : operation) : operation :=
  match op with
  | SetDateTime _ => SetDateTime []
  | SetPreviewMatrix _ => SetPreviewMatrix []
  | SetIntensity _ => SetIntensity []
  | SetRtcCalibration _ => SetRtcCalibration S754_nan
  | SetStandby _ => SetStandby []
  | GetFlashConfigPage _ => GetFlashConfigPage 0
  | EraseFlashConfigSector _ => EraseFlashConfigSector 0
  | SetFlashClockConfig _ => SetFlashClockConfig []
  | SetAppointments _ => SetAppointments []
  | _ => op
  end.

(** The get-style operations, which fill an object of the caller. *)
Definition fills_object (op : operation) : bool :=
  match op with
  | GetVersion | GetDateTime | GetIntensity | GetLastCalibration | GetStandby
  | GetFlashConfigPage _ | GetAppointments => true
  | _ => false
  end.

(** ** Arithmetic of the byte swap *)

Lemma is_byte_spec (b : Z) : is_byte b = true <-> 0 <= b < 256.
Proof. unfold is_byte. rewrite andb_true_iff, Z.leb_le, Z.ltb_lt. tauto. Qed.

Lemma is_uint16_spec (v : Z) : is_uint16 v = true <-> 0 <= v < 65536.
Proof. unfold is_uint16. rewrite andb_true_iff, Z.leb_le, Z.ltb_lt. tauto. Qed.

(** Shifting left by eight and or-ing in the high byte adds two numbers
    whose bits do not overlap. *)
Lemma swap_lor_add (v : Z) :
  0 <= v < 65536 ->
  Z.lor (Z.shiftl v 8) (Z.shiftr v 8) = v * 256 + v / 256.
Proof.
  intros Hv.
  rewrite Z.shiftl_mul_pow2, Z.shiftr_div_pow2 by lia.
  change (2 ^ 8) with 256.
  assert (Hq : 0 <= v / 256 < 256).
  { split; [apply Z.div_pos; lia | apply Z.div_lt_upper_bound; lia]. }
  assert (Hdisj : Z.land (v * 256) (v / 256) = 0).
  { apply Z.bits_inj'. intros n Hn. rewrite Z.land_spec, Z.bits_0.
    destruct (Z.lt_ge_cases n 8) as [Hlt | Hge].
    - change 256 with (2 ^ 8) at 1.
      rewrite Z.mul_pow2_bits_low by lia. reflexivity.
    - rewrite (Z.bits_above_log2 (v / 256) n), andb_false_r; [reflexivity | lia |].
      destruct (Z.eq_dec (v / 256) 0) as [-> | Hnz]; [simpl; lia |].
      apply Z.lt_le_trans with 8; [| lia].
      apply Z.log2_lt_pow2; lia. }
  rewrite <- Z.lxor_lor by exact Hdisj.
  symmetry. apply Z.add_nocarry_lxor. exact Hdisj.
Qed.

(** On a host that is not big-endian the macro exchanges the two bytes. *)
Lemma swap_bytes (hi lo : Z) :
  0 <= hi < 256 -> 0 <= lo < 256 ->
  APP_SWAP_ENDIAN_16 false (wire_u16 hi lo) = wire_u16 lo hi.
Proof.
  intros Hhi Hlo. unfold APP_SWAP_ENDIAN_16, wire_u16, uint16.
  rewrite swap_lor_add by lia.
  replace ((hi * 256 + lo) / 256) with hi
    by (apply Z.div_unique with lo; lia).
  symmetry. apply Z.mod_unique with hi; lia.
Qed.

Lemma uint16_split (v : Z) :
  0 <= v < 65536 ->
  v = wire_u16 (v / 256) (v mod 256) /\ 0 <= v / 256 < 256 /\ 0 <= v mod 256 < 256.
Proof.
  intros Hv. unfold wire_u16. split; [| split].
  - pose proof (Z.div_mod v 256). lia.
  - split; [apply Z.div_pos; lia | apply Z.div_lt_upper_bound; lia].
  - apply Z.mod_pos_bound. lia.
Qed.

Lemma swap_range (be : bool) (v : Z) :
  0 <= v < 65536 -> 0 <= APP_SWAP_ENDIAN_16 be v < 65536.
Proof.
  intros Hv. unfold APP_SWAP_ENDIAN_16. destruct be; [assumption |].
  unfold uint16. apply Z.mod_pos_bound. lia.
Qed.

Lemma swap_twice (be : bool) (v : Z) :
  0 <= v < 65536 ->
  APP_SWAP_ENDIAN_16 be (APP_SWAP_ENDIAN_16 be v) = v.
Proof.
  intros Hv. destruct be; [reflexivity |].
  destruct (uint16_split v Hv) as (Hsplit & Hhi & Hlo).
  rewrite Hsplit at 1. rewrite !swap_bytes by assumption. symmetry. exact Hsplit.
Qed.

(** C4.  The endianness transform is self-inverse on every 16-bit value,
    whatever the byte order of the host: on a host that is not big-endian
    it is [((v << 8) | (v >> 8))] truncated to 16 bits, and applying it
    twice gives [v] back; on a big-endian host it is the identity. *)
Theorem swap_endian_16_involutive :
  forall (host_big_endian : bool) (v : Z),
    0 <= v < 65536 ->
    APP_SWAP_ENDIAN_16 host_big_endian (APP_SWAP_ENDIAN_16 host_big_endian v) = v
    /\ APP_SWAP_ENDIAN_16 true v = v
    /\ APP_SWAP_ENDIAN_16 false v = (Z.lor (Z.shiftl v 8) (Z.shiftr v 8)) mod 65536.
Proof.
  intros be v Hv. split; [| split; reflexivity].
  apply swap_twice. exact Hv.
Qed.

Lemma swap_endian_16_involutive_witness :
  0 <= 4660 < 65536 /\
  APP_SWAP_ENDIAN_16 false (APP_SWAP_ENDIAN_16 false 4660) = 4660.
Proof.
  split; [lia |].
  exact (proj1 (swap_endian_16_involutive false 4660 ltac:(lia))).
Defined.

(** ** The send-and-receive primitive *)

(** The three ways out of [AppSendAndReceive], in the order of its checks. *)
Lemma AppSendAndReceive_unfold command sendBuf sendBufLen recvBufLen st :
  let st' := Link (sent st ++ [Frame command sendBuf sendBufLen]) (device st) in
  let r := device st (sent st ++ [Frame command sendBuf sendBufLen]) in
  AppSendAndReceive command sendBuf sendBufLen recvBufLen st =
    if negb (r_command r =? command)
    then Exit (InvalidAnswerCommand (r_command r)) st'
    else if negb (Z.of_nat (length (r_payload r)) =? recvBufLen)
         then Exit (InvalidLength (Z.of_nat (length (r_payload r)))) st'
         else Return (take (Z.to_nat recvBufLen) (r_payload r)) st'.
Proof.
  intros st' r. unfold AppSendAndReceive, bind, LinkSendCommandAndBuffer,
    LinkReceiveCommandAndBuffer, ExitWithError, ret. simpl.
  fold r st'.
  destruct (negb (r_command r =? command)); [reflexivity |].
  destruct (negb (Z.of_nat (length (r_payload r)) =? recvBufLen)); reflexivity.
Qed.

Lemma AppSendAndReceive_bad_command command sendBuf sendBufLen recvBufLen st :
  let r := device st (sent st ++ [Frame command sendBuf sendBufLen]) in
  r_command r <> command ->
  AppSendAndReceive command sendBuf sendBufLen recvBufLen st =
    Exit (InvalidAnswerCommand (r_command r))
      (Link (sent st ++ [Frame command sendBuf sendBufLen]) (device st)).
Proof.
  intros r Hne. rewrite AppSendAndReceive_unfold. fold r.
  destruct (Z.eqb_spec (r_command r) command); [contradiction | reflexivity].
Qed.

Lemma AppSendAndReceive_bad_length command sendBuf sendBufLen recvBufLen st :
  let r := device st (sent st ++ [Frame command sendBuf sendBufLen]) in
  r_command r = command ->
  Z.of_nat (length (r_payload r)) <> recvBufLen ->
  AppSendAndReceive command sendBuf sendBufLen recvBufLen st =
    Exit (InvalidLength (Z.of_nat (length (r_payload r))))
      (Link (sent st ++ [Frame command sendBuf sendBufLen]) (device st)).
Proof.
  intros r Heq Hne. rewrite AppSendAndReceive_unfold. fold r.
  destruct (Z.eqb_spec (r_command r) command); [| contradiction]. simpl.
  destruct (Z.eqb_spec (Z.of_nat (length (r_payload r))) recvBufLen);
    [contradiction | reflexivity].
Qed.

Lemma AppSendAndReceive_ok command sendBuf sendBufLen recvBufLen st :
  let r := device st (sent st ++ [Frame command sendBuf sendBufLen]) in
  r_command r = command ->
  Z.of_nat (length (r_payload r)) = recvBufLen ->
  AppSendAndReceive command sendBuf sendBufLen recvBufLen st =
    Return (r_payload r)
      (Link (sent st ++ [Frame command sendBuf sendBufLen]) (device st)).
Proof.
  intros r Heq Hlen. rewrite AppSendAndReceive_unfold. fold r.
  destruct (Z.eqb_spec (r_command r) command); [| contradiction]. simpl.
  destruct (Z.eqb_spec (Z.of_nat (length (r_payload r))) recvBufLen);
    [| contradiction]. simpl.
  rewrite <- Hlen, Nat2Z.id, firstn_all. reflexivity.
Qed.

Lemma run_codec (be : bool) (h : app_h) (op : operation) (st : link) :
  run be h op st =
    (recvBuf <- AppSendAndReceive (op_command op) (f_buf (op_frame be h op))
                  (f_len (op_frame be h op)) (op_recv_len h op) ;;
     finish be h op recvBuf) st.
Proof.
  destruct op; cbn [run op_command op_frame op_recv_len f_buf f_len finish];
    unfold object, void, AppGetVersion, AppGetDateTime, AppSetDateTime,
      AppSetNormalMode, AppSetPreviewMode, AppFactoryReset, AppActivateBootloader,
      AppSetPreviewMatrix, AppGetIntensity, AppSetIntensity, AppGetLastCalibration,
      AppSetRtcCalibration, AppGetStandby, AppSetStandby, AppGetFlashConfigPage,
      AppEraseFlashConfigSector, AppSetFlashClockConfig, AppGetAppointments,
      AppSetAppointments, bind, ret, ExitWithError;
    match goal with
    | |- context [AppSendAndReceive ?c ?b ?l ?r st] =>
        destruct (AppSendAndReceive c b l r st) as [recvBuf st' | e st']
    end; try reflexivity;
    repeat match goal with
    | |- context [if ?c then _ else _] => destruct c
    end; reflexivity.
Qed.

Lemma op_frame_eta (be : bool) (h : app_h) (op : operation) :
  Frame (op_command op) (f_buf (op_frame be h op)) (f_len (op_frame be h op))
  = op_frame be h op.
Proof. destruct op; reflexivity. Qed.

(** ** 16-bit fields of objects in memory *)

Lemma bytes_ok_lookup (mem : list Z) (i : nat) (b : Z) :
  bytes_ok mem = true -> mem !! i = Some b -> 0 <= b < 256.
Proof.
  unfold bytes_ok. rewrite forallb_forall. intros Hall Hi.
  apply is_byte_spec, Hall, list_elem_of_In. eapply list_elem_of_lookup_2, Hi.
Qed.

(** The two cells of a field that lies inside a well-formed object. *)
Lemma field_cells (mem : list Z) (off : nat) :
  bytes_ok mem = true -> (off + 2 <= length mem)%nat ->
  exists b0 b1, mem !! off = Some b0 /\ mem !! S off = Some b1
                /\ 0 <= b0 < 256 /\ 0 <= b1 < 256.
Proof.
  intros Hok Hlen.
  destruct (lookup_lt_is_Some_2 mem off) as [b0 H0]; [lia |].
  destruct (lookup_lt_is_Some_2 mem (S off)) as [b1 H1]; [lia |].
  exists b0, b1. repeat split; try assumption;
    eapply bytes_ok_lookup; eassumption.
Qed.

Lemma load_u16_range (be : bool) (mem : list Z) (off : nat) :
  bytes_ok mem = true -> (off + 2 <= length mem)%nat ->
  0 <= load_u16 be mem off < 65536.
Proof.
  intros Hok Hlen.
  destruct (field_cells mem off Hok Hlen) as (b0 & b1 & H0 & H1 & R0 & R1).
  unfold load_u16. rewrite H0, H1. simpl. destruct be; lia.
Qed.

(** Reading a field in host order and applying the macro reads it in
    wire order. *)
Lemma swap_load_wire (be : bool) (mem : list Z) (off : nat) :
  bytes_ok mem = true -> (off + 2 <= length mem)%nat ->
  APP_SWAP_ENDIAN_16 be (load_u16 be mem off) = wire_field mem off.
Proof.
  intros Hok Hlen.
  destruct (field_cells mem off Hok Hlen) as (b0 & b1 & H0 & H1 & R0 & R1).
  unfold wire_field, load_u16. rewrite H0, H1. simpl.
  destruct be; [reflexivity |].
  replace (b0 + b1 * 256) with (wire_u16 b1 b0) by (unfold wire_u16; lia).
  rewrite swap_bytes by assumption. reflexivity.
Qed.

Lemma store_u16_length (be : bool) (mem : list Z) (off : nat) (v : Z) :
  length (store_u16 be mem off v) = length mem.
Proof. unfold store_u16. destruct be; rewrite !length_insert; reflexivity. Qed.

Lemma store_u16_other (be : bool) (mem : list Z) (off : nat) (v : Z) (i : nat) :
  i <> off -> i <> S off -> store_u16 be mem off v !! i = mem !! i.
Proof.
  intros Hi0 Hi1. unfold store_u16.
  destruct be; rewrite !list_lookup_insert_ne by congruence; reflexivity.
Qed.

Lemma load_store_u16 (be : bool) (mem : list Z) (off : nat) (v : Z) :
  (off + 2 <= length mem)%nat -> 0 <= v < 65536 ->
  load_u16 be (store_u16 be mem off v) off = v.
Proof.
  intros Hlen Hv. destruct (uint16_split v Hv) as (Hsplit & _ & _).
  unfold wire_u16 in Hsplit. unfold load_u16, store_u16. destruct be.
  - rewrite list_lookup_insert_eq by (rewrite length_insert; lia).
    rewrite list_lookup_insert_ne by lia.
    rewrite list_lookup_insert_eq by lia. simpl. lia.
  - rewrite list_lookup_insert_eq by (rewrite length_insert; lia).
    rewrite list_lookup_insert_ne by lia.
    rewrite list_lookup_insert_eq by lia. simpl. lia.
Qed.

(** The cells of a stored value, in memory order. *)
Lemma store_u16_cells (be : bool) (mem : list Z) (off : nat) (v : Z) :
  (off + 2 <= length mem)%nat ->
  store_u16 be mem off v !! off
    = Some (if be then v / 256 else v mod 256)
  /\ store_u16 be mem off v !! S off
    = Some (if be then v mod 256 else v / 256).
Proof.
  intros Hlen. unfold store_u16. destruct be; split.
  - rewrite list_lookup_insert_eq by (rewrite length_insert; lia). reflexivity.
  - rewrite list_lookup_insert_ne by lia.
    rewrite list_lookup_insert_eq by lia. reflexivity.
  - rewrite list_lookup_insert_eq by (rewrite length_insert; lia). reflexivity.
  - rewrite list_lookup_insert_ne by lia.
    rewrite list_lookup_insert_eq by lia. reflexivity.
Qed.

(** Storing back what a field holds changes nothing. *)
Lemma store_load_u16 (be : bool) (mem : list Z) (off : nat) :
  bytes_ok mem = true -> (off + 2 <= length mem)%nat ->
  store_u16 be mem off (load_u16 be mem off) = mem.
Proof.
  intros Hok Hlen.
  destruct (field_cells mem off Hok Hlen) as (b0 & b1 & H0 & H1 & R0 & R1).
  unfold load_u16, store_u16. rewrite H0, H1. simpl. destruct be.
  - replace ((b0 * 256 + b1) / 256) with b0 by (apply Z.div_unique with b1; lia).
    replace ((b0 * 256 + b1) mod 256) with b1 by (apply Z.mod_unique with b0; lia).
    rewrite (list_insert_id mem (S off)) by assumption.
    apply list_insert_id. assumption.
  - replace ((b0 + b1 * 256) / 256) with b1 by (apply Z.div_unique with b0; lia).
    replace ((b0 + b1 * 256) mod 256) with b0 by (apply Z.mod_unique with b1; lia).
    rewrite (list_insert_id mem (S off)) by assumption.
    apply list_insert_id. assumption.
Qed.

Lemma store_store_u16 (be : bool) (mem : list Z) (off : nat) (v w : Z) :
  store_u16 be (store_u16 be mem off v) off w = store_u16 be mem off w.
Proof.
  unfold store_u16. destruct be.
  - rewrite (list_insert_insert_ne _ (S off) off) by lia.
    rewrite !list_insert_insert_eq. reflexivity.
  - rewrite (list_insert_insert_ne _ (S off) off) by lia.
    rewrite !list_insert_insert_eq. reflexivity.
Qed.

Lemma swap_field_length (be : bool) (mem : list Z) (off : nat) :
  length (swap_field be mem off) = length mem.
Proof. apply store_u16_length. Qed.

Lemma swap_field_other (be : bool) (mem : list Z) (off i : nat) :
  i <> off -> i <> S off -> swap_field be mem off !! i = mem !! i.
Proof. apply store_u16_other. Qed.

(** After the macro the field holds, in host order, the value the object
    carried in wire order. *)
Lemma load_swap_field (be : bool) (mem : list Z) (off : nat) :
  bytes_ok mem = true -> (off + 2 <= length mem)%nat ->
  load_u16 be (swap_field be mem off) off = wire_field mem off.
Proof.
  intros Hok Hlen. unfold swap_field.
  rewrite load_store_u16.
  - apply swap_load_wire; assumption.
  - assumption.
  - apply swap_range, load_u16_range; assumption.
Qed.

(** After the macro the cells of the field hold the host value of the
    field high byte first. *)
Lemma swap_field_cells (be : bool) (mem : list Z) (off : nat) :
  bytes_ok mem = true -> (off + 2 <= length mem)%nat ->
  swap_field be mem off !! off = Some (load_u16 be mem off / 256)
  /\ swap_field be mem off !! S off = Some (load_u16 be mem off mod 256).
Proof.
  intros Hok Hlen.
  pose proof (load_u16_range be mem off Hok Hlen) as Hv.
  destruct (uint16_split _ Hv) as (Hsplit & Hhi & Hlo).
  unfold swap_field.
  destruct (store_u16_cells be mem off
              (APP_SWAP_ENDIAN_16 be (load_u16 be mem off)) Hlen) as [C0 C1].
  rewrite C0, C1. destruct be; [split; reflexivity |].
  rewrite Hsplit at 1 3. rewrite swap_bytes by assumption. unfold wire_u16.
  split; f_equal.
  - symmetry. apply Z.mod_unique with (load_u16 false mem off mod 256); lia.
  - symmetry. apply Z.div_unique with (load_u16 false mem off / 256); lia.
Qed.

(** Applying the macro to a field twice restores the object. *)
Lemma swap_field_twice (be : bool) (mem : list Z) (off : nat) :
  bytes_ok mem = true -> (off + 2 <= length mem)%nat ->
  swap_field be (swap_field be mem off) off = mem.
Proof.
  intros Hok Hlen.
  pose proof (load_u16_range be mem off Hok Hlen) as Hv.
  unfold swap_field.
  rewrite (load_store_u16 be mem off) by (try apply swap_range; assumption).
  rewrite store_store_u16, (swap_twice be _ Hv).
  apply store_load_u16; assumption.
Qed.

Lemma bytes_ok_Forall (mem : list Z) :
  bytes_ok mem = true <-> Forall (fun b => 0 <= b < 256) mem.
Proof.
  unfold bytes_ok. induction mem as [| b mem IH]; simpl.
  - split; [constructor | reflexivity].
  - rewrite andb_true_iff, is_byte_spec, IH, Forall_cons. reflexivity.
Qed.

Lemma bytes_ok_store_u16 (be : bool) (mem : list Z) (off : nat) (v : Z) :
  bytes_ok mem = true -> 0 <= v < 65536 ->
  bytes_ok (store_u16 be mem off v) = true.
Proof.
  rewrite !bytes_ok_Forall. intros Hok Hv.
  destruct (uint16_split v Hv) as (_ & Hhi & Hlo).
  unfold store_u16. destruct be; repeat apply Forall_insert; assumption.
Qed.

Lemma bytes_ok_swap_field (be : bool) (mem : list Z) (off : nat) :
  bytes_ok mem = true -> (off + 2 <= length mem)%nat ->
  bytes_ok (swap_field be mem off) = true.
Proof.
  intros Hok Hlen. apply bytes_ok_store_u16; [assumption |].
  apply swap_range, load_u16_range; assumption.
Qed.

(** A field is read from its two cells only. *)
Lemma load_u16_ext (be : bool) (mem mem' : list Z) (off : nat) :
  mem !! off = mem' !! off -> mem !! S off = mem' !! S off ->
  load_u16 be mem off = load_u16 be mem' off.
Proof. intros H0 H1. unfold load_u16. rewrite H0, H1. reflexivity. Qed.

(** The macro applied to one field leaves a field that does not overlap
    it as it was. *)
Lemma load_swap_field_other (be be' : bool) (mem : list Z) (off off' : nat) :
  (off' + 2 <= off \/ off + 2 <= off')%nat ->
  load_u16 be' (swap_field be mem off) off' = load_u16 be' mem off'.
Proof.
  intros Hdisj. apply load_u16_ext; apply swap_field_other; lia.
Qed.

(** ** Validation of the response by the primitive *)

Section Codec.

Variable be : bool.
Variable h : app_h.

(** C2.  Whatever the operation, a response whose tag is not the tag
    sent ends the operation with the invalid-command error that names
    the tag received.  Nothing of the payload enters the outcome: no
    result is returned and no page-number check is reached. *)
Theorem tag_mismatch_is_fatal (op : operation) (st : link) :
  r_command (answer be h op st) <> op_command op ->
  run be h op st
    = Exit (InvalidAnswerCommand (r_command (answer be h op st)))
           (after_send be h op st)
  /\ (forall res l, run be h op st <> Return res l)
  /\ (forall n l, run be h op st <> Exit (BadPageNumber n) l)
  /\ (forall n l, run be h op st <> Exit (InvalidLength n) l).
Proof.
  intros Hne.
  assert (Hrun : run be h op st
    = Exit (InvalidAnswerCommand (r_command (answer be h op st)))
           (after_send be h op st)).
  { rewrite run_codec. unfold bind.
    rewrite AppSendAndReceive_bad_command;
      rewrite op_frame_eta; [reflexivity | exact Hne]. }
  rewrite Hrun. repeat split; intros; discriminate.
Qed.

(** C3, as the code has it.  Whatever the operation, a response that
    carries the tag sent and a length other than the expected one ends
    the operation with the invalid-length error that names the length
    received. *)
Theorem length_mismatch_is_fatal (op : operation) (st : link) :
  r_command (answer be h op st) = op_command op ->
  answer_len be h op st <> op_recv_len h op ->
  run be h op st
    = Exit (InvalidLength (answer_len be h op st)) (after_send be h op st).
Proof.
  intros Heq Hne. rewrite run_codec. unfold bind.
  rewrite AppSendAndReceive_bad_length; rewrite op_frame_eta;
    [reflexivity | exact Heq | exact Hne].
Qed.

(** C9.  The tag is checked before the length: a response with both a
    wrong tag and a wrong length is reported as an invalid command, not
    as an invalid length. *)
Theorem tag_check_precedes_length_check (op : operation) (st : link) :
  r_command (answer be h op st) <> op_command op ->
  answer_len be h op st <> op_recv_len h op ->
  run be h op st
    = Exit (InvalidAnswerCommand (r_command (answer be h op st)))
           (after_send be h op st)
  /\ run be h op st
     <> Exit (InvalidLength (answer_len be h op st)) (after_send be h op st).
Proof.
  intros Hcmd Hlen.
  assert (Hrun : run be h op st
    = Exit (InvalidAnswerCommand (r_command (answer be h op st)))
           (after_send be h op st)).
  { rewrite run_codec. unfold bind.
    rewrite AppSendAndReceive_bad_command;
      rewrite op_frame_eta; [reflexivity | exact Hcmd]. }
  rewrite Hrun. split; [reflexivity | discriminate].
Qed.

(** C10.  An operation without response payload still receives and
    validates the answer: its expected length is 0, it returns exactly
    when the answer carries the tag sent and no payload byte, and it
    exits with an error otherwise. *)
Theorem empty_response_is_validated (op : operation) (st : link) :
  no_response_payload op = true ->
  op_recv_len h op = 0
  /\ (r_command (answer be h op st) = op_command op /\ answer_len be h op st = 0
      -> run be h op st = Return RVoid (after_send be h op st))
  /\ (~ (r_command (answer be h op st) = op_command op
         /\ answer_len be h op st = 0)
      -> exists e, run be h op st = Exit e (after_send be h op st)
           /\ (e = InvalidAnswerCommand (r_command (answer be h op st))
               \/ e = InvalidLength (answer_len be h op st))).
Proof.
  intros Hop.
  assert (Hlen0 : op_recv_len h op = 0) by (destruct op; try discriminate; reflexivity).
  split; [exact Hlen0 | split].
  - intros [Hcmd Hlen]. rewrite run_codec. unfold bind.
    rewrite AppSendAndReceive_ok; rewrite op_frame_eta;
      [| exact Hcmd | rewrite Hlen0; exact Hlen].
    destruct op; try discriminate; reflexivity.
  - intros Hbad.
    destruct (Z.eq_dec (r_command (answer be h op st)) (op_command op)) as [Hcmd | Hcmd].
    + assert (Hlen : answer_len be h op st <> op_recv_len h op).
      { rewrite Hlen0. intros Hlen. apply Hbad. split; assumption. }
      eexists. split; [| right; reflexivity].
      rewrite run_codec. unfold bind.
      rewrite AppSendAndReceive_bad_length; rewrite op_frame_eta;
        [reflexivity | exact Hcmd | exact Hlen].
    + eexists. split; [| left; reflexivity].
      rewrite run_codec. unfold bind.
      rewrite AppSendAndReceive_bad_command; rewrite op_frame_eta;
        [reflexivity | exact Hcmd].
Qed.

End Codec.

(** *** The validation on the simulated device *)

Lemma tag_mismatch_is_fatal_witness :
  r_command (answer false Sim.header GetVersion Scenario.wrong_tag_version)
    <> op_command GetVersion
  /\ run false Sim.header GetVersion Scenario.wrong_tag_version
     = Exit (InvalidAnswerCommand (chr "x"))
            (after_send false Sim.header GetVersion Scenario.wrong_tag_version).
Proof.
  assert (Hne : r_command (answer false Sim.header GetVersion
                             Scenario.wrong_tag_version)
                <> op_command GetVersion) by (vm_compute; lia).
  split; [exact Hne |].
  exact (proj1 (tag_mismatch_is_fatal false Sim.header GetVersion
                  Scenario.wrong_tag_version Hne)).
Defined.

(** C3 as stated fails: when the tag is wrong as well, the wrong length
    is never reported.  The normal-mode switch answered with tag 'x' and
    one payload byte exits with the invalid-command error. *)
Lemma length_mismatch_with_wrong_tag :
  answer_len false Sim.header SetNormalMode Scenario.wrong_tag_one_byte
    <> op_recv_len Sim.header SetNormalMode
  /\ run false Sim.header SetNormalMode Scenario.wrong_tag_one_byte
     = Exit (InvalidAnswerCommand (chr "x"))
            (after_send false Sim.header SetNormalMode Scenario.wrong_tag_one_byte)
  /\ forall n l,
       run false Sim.header SetNormalMode Scenario.wrong_tag_one_byte
       <> Exit (InvalidLength n) l.
Proof.
  split; [vm_compute; lia |].
  assert (Hrun : run false Sim.header SetNormalMode Scenario.wrong_tag_one_byte
                 = Exit (InvalidAnswerCommand (chr "x"))
                        (after_send false Sim.header SetNormalMode
                           Scenario.wrong_tag_one_byte))
    by reflexivity.
  split; [exact Hrun |]. intros n l. rewrite Hrun. discriminate.
Qed.

Lemma length_mismatch_is_fatal_witness :
  r_command (answer false Sim.header GetVersion Scenario.short_version)
    = op_command GetVersion
  /\ answer_len false Sim.header GetVersion Scenario.short_version
     <> op_recv_len Sim.header GetVersion
  /\ run false Sim.header GetVersion Scenario.short_version
     = Exit (InvalidLength 4)
            (after_send false Sim.header GetVersion Scenario.short_version).
Proof.
  assert (Heq : r_command (answer false Sim.header GetVersion Scenario.short_version)
                = op_command GetVersion) by reflexivity.
  assert (Hne : answer_len false Sim.header GetVersion Scenario.short_version
                <> op_recv_len Sim.header GetVersion) by (vm_compute; lia).
  split; [exact Heq | split; [exact Hne |]].
  exact (length_mismatch_is_fatal false Sim.header GetVersion
           Scenario.short_version Heq Hne).
Defined.

Lemma tag_check_precedes_length_check_witness :
  r_command (answer false Sim.header (EraseFlashConfigSector 5)
               Scenario.wrong_tag_three_bytes)
    <> op_command (EraseFlashConfigSector 5)
  /\ answer_len false Sim.header (EraseFlashConfigSector 5)
       Scenario.wrong_tag_three_bytes
     <> op_recv_len Sim.header (EraseFlashConfigSector 5)
  /\ run false Sim.header (EraseFlashConfigSector 5) Scenario.wrong_tag_three_bytes
     = Exit (InvalidAnswerCommand (chr "x"))
            (after_send false Sim.header (EraseFlashConfigSector 5)
               Scenario.wrong_tag_three_bytes).
Proof.
  assert (Hcmd : r_command (answer false Sim.header (EraseFlashConfigSector 5)
                              Scenario.wrong_tag_three_bytes)
                 <> op_command (EraseFlashConfigSector 5)) by (vm_compute; lia).
  assert (Hlen : answer_len false Sim.header (EraseFlashConfigSector 5)
                   Scenario.wrong_tag_three_bytes
                 <> op_recv_len Sim.header (EraseFlashConfigSector 5))
    by (vm_compute; lia).
  split; [exact Hcmd | split; [exact Hlen |]].
  exact (proj1 (tag_check_precedes_length_check false Sim.header
                  (EraseFlashConfigSector 5) Scenario.wrong_tag_three_bytes
                  Hcmd Hlen)).
Defined.

Lemma empty_response_is_validated_witness :
  no_response_payload (SetIntensity [3]) = true
  /\ run false Sim.header (SetIntensity [3]) Scenario.acknowledging
     = Return RVoid
         (after_send false Sim.header (SetIntensity [3]) Scenario.acknowledging).
Proof.
  assert (Hop : no_response_payload (SetIntensity [3]) = true) by reflexivity.
  split; [exact Hop |].
  apply (proj1 (proj2 (empty_response_is_validated false Sim.header
                         (SetIntensity [3]) Scenario.acknowledging Hop))).
  split; reflexivity.
Defined.

Section Echo.

Variable be : bool.
Variable h : app_h.

(** What follows the primitive in the three flash operations: the
    comparison of the echoed page number with the requested one. *)
Lemma finish_echo (op : operation) (payload : list Z) (l : link) :
  checks_echo op = true ->
  args_ok be h op = true ->
  bytes_ok payload = true ->
  Z.of_nat (length payload) = op_recv_len h op ->
  finish be h op payload l =
    if echoed_page h op payload =? requested_page be h op
    then match op with
         | GetFlashConfigPage _ =>
             Return (RObject (swap_field be payload
                       (offsetof_AppFlashConfigPageType_pageNumber h))) l
         | SetFlashClockConfig config => Return (RObject config) l
         | _ => Return RVoid l
         end
    else Exit (BadPageNumber (echoed_page h op payload)) l.
Proof.
  intros Hop Hargs Hok Hlen.
  destruct op; try discriminate;
    cbn [finish echoed_page requested_page args_ok op_recv_len] in *.
  - (* flash page get *)
    apply andb_true_iff in Hargs as [Hpn Hoff].
    apply is_uint16_spec in Hpn. apply Z.leb_le in Hoff.
    rewrite swap_twice by assumption.
    rewrite load_swap_field by (try assumption; lia).
    unfold ExitWithError, ret.
    destruct (_ =? pageNumber); reflexivity.
  - (* flash sector erase *)
    apply is_uint16_spec in Hargs.
    assert (Hlen2 : (0 + 2 <= length payload)%nat)
      by (change (uint16 sizeof_uint16_t) with 2 in Hlen; lia).
    rewrite swap_twice by assumption.
    rewrite swap_load_wire by assumption.
    unfold ExitWithError, ret.
    destruct (_ =? startPage); reflexivity.
  - (* flash clock configuration set *)
    apply andb_true_iff in Hargs as [Hcfg Hoff]. apply Nat.leb_le in Hoff.
    assert (Hlen2 : (0 + 2 <= length payload)%nat)
      by (change (uint16 sizeof_uint16_t) with 2 in Hlen; lia).
    rewrite swap_field_twice by assumption.
    rewrite swap_load_wire by assumption.
    unfold ExitWithError, ret.
    destruct (_ =? _); reflexivity.
Qed.

(** A response that passes the primitive and carries the wrong page
    number ends the operation with the bad-page-number error. *)
Lemma run_echo_mismatch (op : operation) (st : link) :
  checks_echo op = true ->
  args_ok be h op = true ->
  r_command (answer be h op st) = op_command op ->
  answer_len be h op st = op_recv_len h op ->
  bytes_ok (r_payload (answer be h op st)) = true ->
  echoed_page h op (r_payload (answer be h op st)) <> requested_page be h op ->
  run be h op st
    = Exit (BadPageNumber (echoed_page h op (r_payload (answer be h op st))))
           (after_send be h op st).
Proof.
  intros Hop Hargs Hcmd Hlen Hok Hne. rewrite run_codec. unfold bind.
  rewrite AppSendAndReceive_ok; rewrite op_frame_eta;
    [| exact Hcmd | exact Hlen].
  rewrite finish_echo by assumption. fold (answer be h op st).
  destruct (Z.eqb_spec (echoed_page h op (r_payload (answer be h op st)))
              (requested_page be h op)); [contradiction | reflexivity].
Qed.

(** A response that passes the primitive, and the page-number check
    where there is one, is handed to the caller decoded. *)
Lemma run_success (op : operation) (st : link) :
  args_ok be h op = true ->
  r_command (answer be h op st) = op_command op ->
  answer_len be h op st = op_recv_len h op ->
  bytes_ok (r_payload (answer be h op st)) = true ->
  (checks_echo op = true ->
   echoed_page h op (r_payload (answer be h op st)) = requested_page be h op) ->
  exists res,
    run be h op st = Return res (after_send be h op st)
    /\ decodes be h op (r_payload (answer be h op st)) res.
Proof.
  intros Hargs Hcmd Hlen Hok Hecho. rewrite run_codec. unfold bind.
  rewrite AppSendAndReceive_ok; rewrite op_frame_eta;
    [| exact Hcmd | exact Hlen].
  fold (answer be h op st) (after_send be h op st).
  set (payload := r_payload (answer be h op st)) in *.
  unfold answer_len in Hlen. fold payload in Hlen.
  destruct (checks_echo op) eqn:Hop.
  - rewrite finish_echo by assumption.
    rewrite (Hecho eq_refl), Z.eqb_refl.
    destruct op; try discriminate; eexists; (split; [reflexivity |]);
      cbn [decodes].
    + (* flash page get *)
      cbn [args_ok op_recv_len] in *.
      apply andb_true_iff in Hargs as [Hpn Hoff]. apply Z.leb_le in Hoff.
      eexists. split; [reflexivity |].
      split; [apply load_swap_field; [assumption | lia] |].
      split; [apply swap_field_length |].
      intros i Hi0 Hi1. apply swap_field_other; assumption.
    + reflexivity.
    + reflexivity.
  - destruct op; try discriminate; cbn [finish decodes];
      try (eexists; split; reflexivity).
    (* version query *)
    eexists. split; [reflexivity |].
    cbn [op_recv_len] in Hlen. change (uint16 sizeof_AppVersionType) with 6 in Hlen.
    unfold offsetof_major, offsetof_minor, offsetof_revision.
    assert (Hok0 : bytes_ok (swap_field be payload 0) = true)
      by (apply bytes_ok_swap_field; [assumption | lia]).
    assert (Hok2 : bytes_ok (swap_field be (swap_field be payload 0) 2) = true)
      by (apply bytes_ok_swap_field; rewrite ?swap_field_length; [assumption | lia]).
    eexists. split; [reflexivity |]. repeat split.
    + rewrite !load_swap_field_other by lia.
      apply load_swap_field; [assumption | lia].
    + rewrite load_swap_field_other by lia.
      rewrite load_swap_field by (rewrite ?swap_field_length; first [assumption | lia]).
      unfold wire_field. apply load_swap_field_other. lia.
    + rewrite load_swap_field by (rewrite ?swap_field_length; first [assumption | lia]).
      unfold wire_field. rewrite !load_swap_field_other by lia. reflexivity.
Qed.

End Echo.

(** ** The operations on a well-behaved and on a misbehaving device *)

(** C1 as stated fails: the right tag and the right length do not make
    every operation return.  The flash page request for page 5, answered
    with tag 'f', the expected six bytes and page number 7, exits with
    the bad-page-number error. *)
Lemma right_tag_and_length_may_fail :
  r_command (answer false Sim.header (GetFlashConfigPage 5) Scenario.page_7)
    = op_command (GetFlashConfigPage 5)
  /\ answer_len false Sim.header (GetFlashConfigPage 5) Scenario.page_7
     = op_recv_len Sim.header (GetFlashConfigPage 5)
  /\ run false Sim.header (GetFlashConfigPage 5) Scenario.page_7
     = Exit (BadPageNumber 7)
            (after_send false Sim.header (GetFlashConfigPage 5) Scenario.page_7)
  /\ forall res l,
       run false Sim.header (GetFlashConfigPage 5) Scenario.page_7 <> Return res l.
Proof.
  assert (Hrun : run false Sim.header (GetFlashConfigPage 5) Scenario.page_7
     = Exit (BadPageNumber 7)
            (after_send false Sim.header (GetFlashConfigPage 5) Scenario.page_7))
    by reflexivity.
  repeat split; try reflexivity.
  intros res l. rewrite Hrun. discriminate.
Qed.

(** C1, as the code has it.  Whatever the operation, when the answer
    carries the tag sent and exactly the expected length, and, for the
    three flash operations, the page number it echoes is the one
    requested, the operation returns; a get-style operation returns the
    bytes the device sent, with the declared 16-bit fields (the three
    version fields, the page number of a flash page) holding in host order
    the value they had in wire order. *)
Theorem correct_response_is_decoded
    (be : bool) (h : app_h) (op : operation) (st : link) :
  args_ok be h op = true ->
  r_command (answer be h op st) = op_command op ->
  answer_len be h op st = op_recv_len h op ->
  bytes_ok (r_payload (answer be h op st)) = true ->
  (checks_echo op = true ->
   echoed_page h op (r_payload (answer be h op st)) = requested_page be h op) ->
  exists res,
    run be h op st = Return res (after_send be h op st)
    /\ decodes be h op (r_payload (answer be h op st)) res.
Proof. apply run_success. Qed.

Lemma correct_response_is_decoded_witness :
  args_ok false Sim.header (GetFlashConfigPage 5) = true
  /\ r_command (answer false Sim.header (GetFlashConfigPage 5) Scenario.page_5)
     = op_command (GetFlashConfigPage 5)
  /\ exists res,
       run false Sim.header (GetFlashConfigPage 5) Scenario.page_5
       = Return res (after_send false Sim.header (GetFlashConfigPage 5) Scenario.page_5)
       /\ decodes false Sim.header (GetFlashConfigPage 5)
            (r_payload (answer false Sim.header (GetFlashConfigPage 5) Scenario.page_5))
            res.
Proof.
  split; [reflexivity | split; [reflexivity |]].
  apply (correct_response_is_decoded false Sim.header (GetFlashConfigPage 5)
           Scenario.page_5); try reflexivity.
Defined.

(** The version fields of an accepted answer, read in host order, are
    the values the answer carries in wire order. *)
Lemma AppGetVersion_decodes (be : bool) (st : link) (payload : list Z) :
  device st (sent st ++ [Frame (chr "v") [] 0]) = Reply (chr "v") payload ->
  bytes_ok payload = true ->
  Z.of_nat (length payload) = uint16 sizeof_AppVersionType ->
  uint16 sizeof_AppVersionType = 6
  /\ exists version,
       AppGetVersion be st
       = Return version (Link (sent st ++ [Frame (chr "v") [] 0]) (device st))
       /\ load_u16 be version offsetof_major = wire_field payload 0
       /\ load_u16 be version offsetof_minor = wire_field payload 2
       /\ load_u16 be version offsetof_revision = wire_field payload 4
       /\ (payload = [0; 1; 0; 2; 0; 3] ->
           load_u16 be version offsetof_major = 1
           /\ load_u16 be version offsetof_minor = 2
           /\ load_u16 be version offsetof_revision = 3).
Proof.
  intros Hdev Hok Hlen. split; [reflexivity |].
  destruct (run_success be Sim.header GetVersion st) as (res & Hrun & Hdec).
  - reflexivity.
  - unfold answer. cbn [op_frame op_command]. rewrite Hdev. reflexivity.
  - unfold answer_len, answer. cbn [op_frame op_command op_recv_len].
    rewrite Hdev. exact Hlen.
  - unfold answer. cbn [op_frame op_command]. rewrite Hdev. exact Hok.
  - discriminate.
  - unfold answer in Hdec. cbn [op_frame op_command decodes] in Hdec.
    rewrite Hdev in Hdec. cbn [r_payload] in Hdec.
    destruct Hdec as (version & -> & Hmaj & Hmin & Hrev).
    exists version. cbn [run] in Hrun. unfold object, bind, ret in Hrun.
    unfold after_send in Hrun. cbn [op_frame op_command] in Hrun.
    destruct (AppGetVersion be st) as [version' l | e l]; [| discriminate].
    injection Hrun as -> ->.
    split; [reflexivity |].
    split; [exact Hmaj | split; [exact Hmin | split; [exact Hrev |]]].
    intros ->. rewrite Hmaj, Hmin, Hrev. repeat split.
Qed.

(** C6.  The version query sends tag 'v' without payload and expects six
    bytes: an answer with another tag is refused with the invalid-command
    error, an answer with tag 'v' and a length other than six with the
    invalid-length error, and on an answer with tag 'v' and six bytes it
    returns the three fields major, minor and revision, each converted
    from wire order to host order.  The device bytes 00 01 00 02 00 03
    decode to 1, 2 and 3. *)
Theorem version_query (be : bool) (st : link) :
  let r := device st (sent st ++ [Frame (chr "v") [] 0]) in
  let st' := Link (sent st ++ [Frame (chr "v") [] 0]) (device st) in
  (r_command r <> chr "v" ->
   AppGetVersion be st = Exit (InvalidAnswerCommand (r_command r)) st')
  /\ (r_command r = chr "v" ->
      Z.of_nat (length (r_payload r)) <> 6 ->
      AppGetVersion be st
      = Exit (InvalidLength (Z.of_nat (length (r_payload r)))) st')
  /\ (r_command r = chr "v" ->
      Z.of_nat (length (r_payload r)) = 6 ->
      bytes_ok (r_payload r) = true ->
      exists version,
        AppGetVersion be st = Return version st'
        /\ load_u16 be version offsetof_major = wire_field (r_payload r) 0
        /\ load_u16 be version offsetof_minor = wire_field (r_payload r) 2
        /\ load_u16 be version offsetof_revision = wire_field (r_payload r) 4
        /\ (r_payload r = [0; 1; 0; 2; 0; 3] ->
            load_u16 be version offsetof_major = 1
            /\ load_u16 be version offsetof_minor = 2
            /\ load_u16 be version offsetof_revision = 3)).
Proof.
  intros r st'. split; [| split].
  - intros Hcmd. unfold AppGetVersion, bind.
    rewrite AppSendAndReceive_bad_command by exact Hcmd. reflexivity.
  - intros Hcmd Hlen. unfold AppGetVersion, bind.
    change (uint16 sizeof_AppVersionType) with 6.
    rewrite AppSendAndReceive_bad_length by assumption. reflexivity.
  - intros Hcmd Hlen Hok.
    destruct (AppGetVersion_decodes be st (r_payload r))
      as (_ & version & Hrun & Hfields); try assumption.
    + fold r. destruct r as [c payload]. cbn [r_command r_payload] in *.
      rewrite Hcmd. reflexivity.
    + exists version. split; [exact Hrun | exact Hfields].
Qed.

Lemma version_query_witness :
  r_command (device Scenario.version_1_2_3
               (sent Scenario.version_1_2_3 ++ [Frame (chr "v") [] 0])) = chr "v"
  /\ exists version,
       AppGetVersion Sim.little_endian_host Scenario.version_1_2_3
       = Return version (Link [Frame (chr "v") [] 0] (device Scenario.version_1_2_3))
       /\ load_u16 Sim.little_endian_host version offsetof_major = 1
       /\ load_u16 Sim.little_endian_host version offsetof_minor = 2
       /\ load_u16 Sim.little_endian_host version offsetof_revision = 3.
Proof.
  split; [reflexivity |].
  destruct (proj2 (proj2 (version_query Sim.little_endian_host Scenario.version_1_2_3))
              eq_refl eq_refl eq_refl)
    as (version & Hrun & _ & _ & _ & Hfields).
  exists version. split; [exact Hrun |]. exact (Hfields eq_refl).
Defined.

(** Every operation hands exactly its frame to the link layer. *)
Lemma run_sends (be : bool) (h : app_h) (op : operation) (st : link) :
  link_of (run be h op st) = after_send be h op st.
Proof.
  rewrite run_codec. unfold bind. rewrite AppSendAndReceive_unfold.
  rewrite op_frame_eta. fold (after_send be h op st).
  destruct (negb _); [reflexivity |]. destruct (negb _); [reflexivity |].
  destruct op; cbn [finish]; unfold ExitWithError, ret;
    try reflexivity; destruct (negb _); reflexivity.
Qed.

(** C7 as stated fails: a wrong page number is reported only when the
    response has passed the primitive.  The flash page request for page 5,
    answered with tag 'x' and page number 7, exits with the
    invalid-command error and never with the bad-page-number error. *)
Lemma echo_mismatch_with_wrong_tag :
  echoed_page Sim.header (GetFlashConfigPage 5)
    (r_payload (answer false Sim.header (GetFlashConfigPage 5)
                  Scenario.wrong_tag_page_7)) = 7
  /\ requested_page false Sim.header (GetFlashConfigPage 5) = 5
  /\ run false Sim.header (GetFlashConfigPage 5) Scenario.wrong_tag_page_7
     = Exit (InvalidAnswerCommand (chr "x"))
         (after_send false Sim.header (GetFlashConfigPage 5) Scenario.wrong_tag_page_7)
  /\ forall n l,
       run false Sim.header (GetFlashConfigPage 5) Scenario.wrong_tag_page_7
       <> Exit (BadPageNumber n) l.
Proof.
  assert (Hrun :
    run false Sim.header (GetFlashConfigPage 5) Scenario.wrong_tag_page_7
     = Exit (InvalidAnswerCommand (chr "x"))
         (after_send false Sim.header (GetFlashConfigPage 5) Scenario.wrong_tag_page_7))
    by reflexivity.
  repeat split; try reflexivity.
  intros n l. rewrite Hrun. discriminate.
Qed.

(** C7, as the code has it.  For the flash page request and the flash
    sector erase, when the answer carries the tag sent and the expected
    length, the page number of the response is brought to host order and
    compared with the page number requested: if they differ the operation
    exits with the bad-page-number error that names the echoed value, and
    if they agree it returns. *)
Theorem page_echo_is_checked
    (be : bool) (h : app_h) (op : operation) (page : Z) (st : link) :
  op = GetFlashConfigPage page \/ op = EraseFlashConfigSector page ->
  args_ok be h op = true ->
  r_command (answer be h op st) = op_command op ->
  answer_len be h op st = op_recv_len h op ->
  bytes_ok (r_payload (answer be h op st)) = true ->
  (echoed_page h op (r_payload (answer be h op st)) <> page ->
   run be h op st
   = Exit (BadPageNumber (echoed_page h op (r_payload (answer be h op st))))
          (after_send be h op st))
  /\ (echoed_page h op (r_payload (answer be h op st)) = page ->
      exists res, run be h op st = Return res (after_send be h op st)).
Proof.
  intros Hop Hargs Hcmd Hlen Hok.
  assert (Hecho : checks_echo op = true) by (destruct Hop; subst op; reflexivity).
  assert (Hreq : requested_page be h op = page)
    by (destruct Hop; subst op; reflexivity).
  split.
  - intros Hne. apply run_echo_mismatch; try assumption. rewrite Hreq. exact Hne.
  - intros Heq.
    destruct (run_success be h op st) as (res & Hrun & _); try assumption.
    + intros _. rewrite Hreq. exact Heq.
    + exists res. exact Hrun.
Qed.

Lemma page_echo_is_checked_witness :
  args_ok false Sim.header (GetFlashConfigPage 5) = true
  /\ echoed_page Sim.header (GetFlashConfigPage 5)
       (r_payload (answer false Sim.header (GetFlashConfigPage 5) Scenario.page_7)) <> 5
  /\ run false Sim.header (GetFlashConfigPage 5) Scenario.page_7
     = Exit (BadPageNumber 7)
         (after_send false Sim.header (GetFlashConfigPage 5) Scenario.page_7).
Proof.
  assert (Hne : echoed_page Sim.header (GetFlashConfigPage 5)
       (r_payload (answer false Sim.header (GetFlashConfigPage 5) Scenario.page_7)) <> 5)
    by (vm_compute; lia).
  split; [reflexivity | split; [exact Hne |]].
  exact (proj1 (page_echo_is_checked false Sim.header (GetFlashConfigPage 5) 5
                  Scenario.page_7 (or_introl eq_refl) eq_refl eq_refl eq_refl eq_refl)
           Hne).
Defined.

(** C8.  The flash clock configuration set, for any request record: the
    frame handed to the link layer is tag 'F' with the record in which
    the two cells of the page number hold its host value high byte first
    and every other byte is the caller's; and when the call returns, the
    caller's record is the record that was passed in, page number and all
    other fields. *)
Theorem clock_config_page_number_round_trip
    (be : bool) (h : app_h) (config : list Z) (st : link) :
  let off := offsetof_AppFlashClockConfigType_pageNumber h in
  let wire := swap_field be config off in
  bytes_ok config = true ->
  (off + 2 <= length config)%nat ->
  sent (link_of (run be h (SetFlashClockConfig config) st))
    = sent st ++ [Frame (chr "F") wire (uint16 (sizeof_AppFlashClockConfigType h))]
  /\ wire !! off = Some (load_u16 be config off / 256)
  /\ wire !! S off = Some (load_u16 be config off mod 256)
  /\ wire_field wire off = load_u16 be config off
  /\ length wire = length config
  /\ (forall i, i <> off -> i <> S off -> wire !! i = config !! i)
  /\ (forall res l,
        run be h (SetFlashClockConfig config) st = Return res l ->
        res = RObject config).
Proof.
  intros off wire Hok Hlen.
  destruct (swap_field_cells be config off Hok Hlen) as [C0 C1].
  pose proof (load_u16_range be config off Hok Hlen) as Hv.
  destruct (uint16_split _ Hv) as (Hsplit & _ & _).
  split; [rewrite run_sends; reflexivity |].
  split; [exact C0 |]. split; [exact C1 |].
  split.
  { unfold wire_field. unfold load_u16 at 1. subst wire. rewrite C0, C1.
    simpl. symmetry. exact Hsplit. }
  split; [apply swap_field_length |].
  split; [intros i Hi0 Hi1; apply swap_field_other; assumption |].
  intros res l Hrun.
  rewrite run_codec in Hrun. unfold bind in Hrun.
  destruct (AppSendAndReceive _ _ _ _ st) as [recvBuf l' | e l']; [| discriminate].
  cbn [finish] in Hrun. fold off in Hrun.
  rewrite swap_field_twice in Hrun by assumption.
  unfold ExitWithError, ret in Hrun.
  destruct (negb _) in Hrun; [discriminate |].
  injection Hrun as <- _. reflexivity.
Qed.

Lemma clock_config_page_number_round_trip_witness :
  bytes_ok Scenario.clock_config_42 = true
  /\ load_u16 false Scenario.clock_config_42 2 = 42
  /\ sent (link_of (run false Sim.header (SetFlashClockConfig Scenario.clock_config_42)
                      Scenario.clock_page_42))
     = [Frame (chr "F") [9; 8; 0; 42; 7; 6] 6]
  /\ run false Sim.header (SetFlashClockConfig Scenario.clock_config_42)
       Scenario.clock_page_42
     = Return (RObject [9; 8; 42; 0; 7; 6])
         (after_send false Sim.header (SetFlashClockConfig Scenario.clock_config_42)
            Scenario.clock_page_42).
Proof.
  split; [reflexivity | split; [reflexivity |]].
  assert (Hlen : (2 + 2 <= length Scenario.clock_config_42)%nat) by (simpl; lia).
  split.
  - exact (proj1 (clock_config_page_number_round_trip false Sim.header
                    Scenario.clock_config_42 Scenario.clock_page_42 eq_refl Hlen)).
  - reflexivity.
Defined.

(** ** The limit on the PPM value *)

Lemma ppm_constants :
  APP_PPM_LIMIT = binary32_of_Z 189
  /\ ppm_250 = binary32_of_Z 250
  /\ ppm_10 = binary32_of_Z 10
  /\ SFopp APP_PPM_LIMIT = binary32_of_Z (-189)
  /\ SFopp ppm_250 = binary32_of_Z (-250).
Proof. repeat split; reflexivity. Qed.

(** Exchanging the operands of the IEEE comparison reverses its result. *)
Lemma SFcompare_antisym (x y : spec_float) (c : comparison) :
  SFcompare x y = Some c -> SFcompare y x = Some (CompOpp c).
Proof.
  destruct x as [s1 | s1 | | s1 m1 e1], y as [s2 | s2 | | s2 m2 e2];
    simpl; try discriminate; intros [= <-];
    try (destruct s1); try (destruct s2); try reflexivity; f_equal.
  - rewrite (Z.compare_antisym e1 e2).
    destruct (e1 ?= e2); simpl; try reflexivity.
    f_equal. symmetry. apply (Pos.compare_cont_antisym m1 m2 Eq).
  - rewrite (Z.compare_antisym e1 e2).
    destruct (e1 ?= e2); simpl; try reflexivity.
    symmetry. apply (Pos.compare_cont_antisym m1 m2 Eq).
Qed.

Lemma SFcompare_defined (x y : spec_float) :
  is_nan x = false -> is_nan y = false -> exists c, SFcompare x y = Some c.
Proof.
  destruct x, y; simpl; try discriminate; intros _ _; eexists; reflexivity.
Qed.

(** For operands that are numbers, "not less than" is "at most" with the
    operands exchanged. *)
Lemma SFltb_false_SFleb (x y : spec_float) :
  is_nan x = false -> is_nan y = false ->
  SFltb x y = false -> SFleb y x = true.
Proof.
  intros Hx Hy. destruct (SFcompare_defined x y Hx Hy) as [c Hc].
  unfold SFltb, SFleb. rewrite Hc, (SFcompare_antisym x y c Hc).
  destruct c; simpl; congruence.
Qed.

Lemma SFleb_SFltb_false (x y : spec_float) :
  SFleb x y = true -> SFltb y x = false.
Proof.
  unfold SFltb, SFleb. destruct (SFcompare x y) as [c |] eqn:Hc; [| discriminate].
  rewrite (SFcompare_antisym x y c Hc). destruct c; simpl; congruence.
Qed.

(** C5 as stated fails for the input that is not a number: both
    comparisons are false on it, so it is transmitted as it is, and it
    lies neither above -189.0 nor below +189.0. *)
Lemma nan_is_not_limited :
  limit_ppm S754_nan = S754_nan
  /\ SFleb (SFopp APP_PPM_LIMIT) (limit_ppm S754_nan) = false
  /\ SFleb (limit_ppm S754_nan) APP_PPM_LIMIT = false
  /\ forall be h st,
       sent (link_of (run be h (SetRtcCalibration S754_nan) st))
       = sent st ++ [Frame (chr "C") (repr_AppRtcCalibrationValueType h S754_nan)
                       (uint16 (sizeof_AppRtcCalibrationValueType h))].
Proof.
  repeat split. intros be h st. rewrite run_sends. reflexivity.
Qed.

(** C5, as the code has it.  For every PPM input that is a number
    (infinities included) the value transmitted lies in [-189.0, +189.0];
    a value already in that range is transmitted unchanged; 250.0 is
    transmitted as 189.0, -250.0 as -189.0 and 10.0 as 10.0.  The
    operation sends the limited value whatever the input, and an input
    out of range is no reason to exit: the operation returns whenever the
    answer carries the tag 'C' and no payload. *)
Theorem ppm_is_limited (p : spec_float) (be : bool) (h : app_h) (st : link) :
  is_nan p = false ->
  SFleb (SFopp APP_PPM_LIMIT) (limit_ppm p) = true
  /\ SFleb (limit_ppm p) APP_PPM_LIMIT = true
  /\ (SFleb (SFopp APP_PPM_LIMIT) p = true -> SFleb p APP_PPM_LIMIT = true ->
      limit_ppm p = p)
  /\ limit_ppm ppm_250 = APP_PPM_LIMIT
  /\ limit_ppm (SFopp ppm_250) = SFopp APP_PPM_LIMIT
  /\ limit_ppm ppm_10 = ppm_10
  /\ sent (link_of (run be h (SetRtcCalibration p) st))
     = sent st ++ [Frame (chr "C") (repr_AppRtcCalibrationValueType h (limit_ppm p))
                     (uint16 (sizeof_AppRtcCalibrationValueType h))]
  /\ (r_command (answer be h (SetRtcCalibration p) st) = chr "C" ->
      answer_len be h (SetRtcCalibration p) st = 0 ->
      run be h (SetRtcCalibration p) st
      = Return RVoid (after_send be h (SetRtcCalibration p) st)).
Proof.
  intros Hnan.
  assert (Hrange : SFleb (SFopp APP_PPM_LIMIT) (limit_ppm p) = true
                   /\ SFleb (limit_ppm p) APP_PPM_LIMIT = true).
  { unfold limit_ppm.
    destruct (SFltb APP_PPM_LIMIT p) eqn:Hhi; [split; reflexivity |].
    destruct (SFltb p (SFopp APP_PPM_LIMIT)) eqn:Hlo; [split; reflexivity |].
    split; apply SFltb_false_SFleb; try assumption; reflexivity. }
  destruct Hrange as [Hlo Hhi].
  split; [exact Hlo | split; [exact Hhi |]].
  split.
  { intros Hge Hle. unfold limit_ppm.
    rewrite (SFleb_SFltb_false _ _ Hle), (SFleb_SFltb_false _ _ Hge). reflexivity. }
  split; [reflexivity |]. split; [reflexivity |]. split; [reflexivity |].
  split; [rewrite run_sends; reflexivity |].
  intros Hcmd Hlen. rewrite run_codec. unfold bind.
  rewrite AppSendAndReceive_ok; rewrite op_frame_eta;
    [reflexivity | exact Hcmd | exact Hlen].
Qed.

Lemma ppm_is_limited_witness :
  is_nan ppm_250 = false
  /\ limit_ppm ppm_250 = APP_PPM_LIMIT
  /\ SFleb (limit_ppm ppm_250) APP_PPM_LIMIT = true
  /\ sent (link_of (run false Sim.header (SetRtcCalibration ppm_250) Scenario.acknowledging))
     = [Frame (chr "C") [0; 0; 61; 67] 4].
Proof.
  split; [reflexivity | split; [reflexivity |]].
  pose proof (ppm_is_limited ppm_250 false Sim.header Scenario.acknowledging eq_refl)
    as (_ & Hhi & _ & _ & _ & _ & Hsent & _).
  split; [exact Hhi | exact Hsent].
Defined.


(** ** Further properties of the primitive and of the operations *)

(** An operation seen through the checks of the primitive. *)
Lemma run_unfold (be : bool) (h : app_h) (op : operation) (st : link) :
  run be h op st =
    if negb (r_command (answer be h op st) =? op_command op)
    then Exit (InvalidAnswerCommand (r_command (answer be h op st)))
              (after_send be h op st)
    else if negb (answer_len be h op st =? op_recv_len h op)
         then Exit (InvalidLength (answer_len be h op st)) (after_send be h op st)
         else finish be h op
                (take (Z.to_nat (op_recv_len h op)) (r_payload (answer be h op st)))
                (after_send be h op st).
Proof.
  rewrite run_codec. unfold bind. rewrite AppSendAndReceive_unfold.
  rewrite op_frame_eta. fold (answer be h op st) (after_send be h op st).
  fold (answer_len be h op st).
  destruct (negb _); [reflexivity |]. destruct (negb _); reflexivity.
Qed.

(** What follows the primitive leaves the link alone and can only exit
    with the bad-page-number error, in one of the three flash operations. *)
Lemma finish_outcome (be : bool) (h : app_h) (op : operation) (buf : list Z)
    (l : link) :
  (exists res, finish be h op buf l = Return res l)
  \/ (exists n, finish be h op buf l = Exit (BadPageNumber n) l
                /\ checks_echo op = true).
Proof.
  destruct op; cbn [finish checks_echo]; unfold ExitWithError, ret;
    try (left; eexists; reflexivity);
    destruct (negb _); [right | left | right | left | right | left];
    eexists; try split; reflexivity.
Qed.

Lemma take_all_of_len (payload : list Z) (n : Z) :
  Z.of_nat (length payload) = n -> take (Z.to_nat n) payload = payload.
Proof. intros <-. rewrite Nat2Z.id. apply firstn_all. Qed.

(** X1.  The primitive returns exactly when the answer carries the
    command sent and as many bytes as the caller expects; it then returns
    the payload of the answer, and the only frame it has handed to the
    link layer is the one it was called with. *)
Theorem send_and_receive_returns_iff
    (command : Z) (sendBuf : list Z) (sendBufLen recvBufLen : Z)
    (st : link) (buf : list Z) (l : link) :
  let r := device st (sent st ++ [Frame command sendBuf sendBufLen]) in
  AppSendAndReceive command sendBuf sendBufLen recvBufLen st = Return buf l
  <-> (r_command r = command
       /\ Z.of_nat (length (r_payload r)) = recvBufLen
       /\ buf = r_payload r
       /\ l = Link (sent st ++ [Frame command sendBuf sendBufLen]) (device st)).
Proof.
  intros r. split.
  - rewrite AppSendAndReceive_unfold. fold r.
    destruct (Z.eqb_spec (r_command r) command) as [Hcmd | Hcmd];
      [| discriminate]. simpl.
    destruct (Z.eqb_spec (Z.of_nat (length (r_payload r))) recvBufLen)
      as [Hlen | Hlen]; [| discriminate]. simpl.
    intros [= <- <-]. rewrite (take_all_of_len _ _ Hlen). repeat split; assumption.
  - intros (Hcmd & Hlen & -> & ->). apply AppSendAndReceive_ok; assumption.
Qed.

(** X2.  Whatever the operation and however it ends, it has handed
    exactly one frame to the link layer, the frame carries the command of
    the operation, and the device is the one it started with: a failed
    operation has still transmitted its command, and nothing is sent
    twice. *)
Theorem one_frame_per_operation
    (be : bool) (h : app_h) (op : operation) (st : link) :
  exists f,
    sent (link_of (run be h op st)) = sent st ++ [f]
    /\ f_command f = op_command op
    /\ length (sent (link_of (run be h op st))) = S (length (sent st))
    /\ device (link_of (run be h op st)) = device st.
Proof.
  exists (op_frame be h op). rewrite run_sends. unfold after_send. cbn [sent device].
  split; [reflexivity |]. split; [destruct op; reflexivity |].
  split; [| reflexivity]. rewrite length_app. simpl. lia.
Qed.

(** X3.  An operation that returns has seen an answer with its own
    command and exactly the expected length; and the object a get-style
    operation hands back has exactly that many bytes. *)
Theorem return_implies_valid_response
    (be : bool) (h : app_h) (op : operation) (st : link) (res : result) (l : link) :
  run be h op st = Return res l ->
  r_command (answer be h op st) = op_command op
  /\ answer_len be h op st = op_recv_len h op
  /\ l = after_send be h op st
  /\ (fills_object op = true ->
      exists mem, res = RObject mem /\ Z.of_nat (length mem) = op_recv_len h op).
Proof.
  rewrite run_unfold.
  destruct (Z.eqb_spec (r_command (answer be h op st)) (op_command op))
    as [Hcmd | Hcmd]; [| discriminate]. simpl.
  destruct (Z.eqb_spec (answer_len be h op st) (op_recv_len h op))
    as [Hlen | Hlen]; [| discriminate]. simpl.
  rewrite (take_all_of_len _ _ Hlen). intros Hfin.
  split; [exact Hcmd | split; [exact Hlen |]].
  split.
  { destruct (finish_outcome be h op (r_payload (answer be h op st))
                (after_send be h op st)) as [[res' H] | [n [H _]]];
      rewrite H in Hfin; [| discriminate]. injection Hfin as _ <-. reflexivity. }
  intros Hget. unfold answer_len in Hlen.
  destruct op; try discriminate; cbn [finish] in Hfin;
    unfold ExitWithError, ret in Hfin;
    try (injection Hfin as <- _; eexists; split; [reflexivity |];
         rewrite ?swap_field_length; exact Hlen).
  destruct (negb _) in Hfin; [discriminate |].
  injection Hfin as <- _. eexists. split; [reflexivity |].
  rewrite swap_field_length. exact Hlen.
Qed.

(** X4.  An operation exits for one of three reasons, and the error says
    which: the invalid-command error names the tag received and is given
    exactly on a wrong tag; the invalid-length error names the length
    received and is given only when the tag was right; the
    bad-page-number error is given only by the three flash operations,
    after tag and length were accepted. *)
Theorem exit_reason
    (be : bool) (h : app_h) (op : operation) (st : link) (e : error) (l : link) :
  run be h op st = Exit e l ->
  l = after_send be h op st
  /\ ((e = InvalidAnswerCommand (r_command (answer be h op st))
       /\ r_command (answer be h op st) <> op_command op)
      \/ (e = InvalidLength (answer_len be h op st)
          /\ r_command (answer be h op st) = op_command op
          /\ answer_len be h op st <> op_recv_len h op)
      \/ (exists n, e = BadPageNumber n
          /\ checks_echo op = true
          /\ r_command (answer be h op st) = op_command op
          /\ answer_len be h op st = op_recv_len h op)).
Proof.
  rewrite run_unfold.
  destruct (Z.eqb_spec (r_command (answer be h op st)) (op_command op))
    as [Hcmd | Hcmd]; simpl.
  - destruct (Z.eqb_spec (answer_len be h op st) (op_recv_len h op))
      as [Hlen | Hlen]; simpl.
    + intros Hfin.
      destruct (finish_outcome be h op
                  (take (Z.to_nat (op_recv_len h op)) (r_payload (answer be h op st)))
                  (after_send be h op st)) as [[res H] | [n [H Hecho]]];
        rewrite H in Hfin; [discriminate |].
      injection Hfin as <- <-. split; [reflexivity |].
      right. right. exists n. repeat split; assumption.
    + intros [= <- <-]. split; [reflexivity |]. right. left.
      repeat split; assumption.
  - intros [= <- <-]. split; [reflexivity |]. left. split; [reflexivity | exact Hcmd].
Qed.

Lemma return_implies_valid_response_witness :
  run false Sim.header GetVersion Scenario.version_1_2_3
    = Return (RObject [1; 0; 2; 0; 3; 0])
        (after_send false Sim.header GetVersion Scenario.version_1_2_3)
  /\ answer_len false Sim.header GetVersion Scenario.version_1_2_3
     = op_recv_len Sim.header GetVersion.
Proof.
  assert (Hrun : run false Sim.header GetVersion Scenario.version_1_2_3
    = Return (RObject [1; 0; 2; 0; 3; 0])
        (after_send false Sim.header GetVersion Scenario.version_1_2_3))
    by reflexivity.
  split; [exact Hrun |].
  exact (proj1 (proj2 (return_implies_valid_response false Sim.header GetVersion
                         Scenario.version_1_2_3 _ _ Hrun))).
Defined.

Lemma exit_reason_witness :
  run false Sim.header (GetFlashConfigPage 5) Scenario.page_7
    = Exit (BadPageNumber 7)
        (after_send false Sim.header (GetFlashConfigPage 5) Scenario.page_7)
  /\ (BadPageNumber 7
      = InvalidAnswerCommand
          (r_command (answer false Sim.header (GetFlashConfigPage 5) Scenario.page_7))
      /\ r_command (answer false Sim.header (GetFlashConfigPage 5) Scenario.page_7)
         <> op_command (GetFlashConfigPage 5)
      \/ BadPageNumber 7
         = InvalidLength
             (answer_len false Sim.header (GetFlashConfigPage 5) Scenario.page_7)
         /\ r_command (answer false Sim.header (GetFlashConfigPage 5) Scenario.page_7)
            = op_command (GetFlashConfigPage 5)
         /\ answer_len false Sim.header (GetFlashConfigPage 5) Scenario.page_7
            <> op_recv_len Sim.header (GetFlashConfigPage 5)
      \/ exists n, BadPageNumber 7 = BadPageNumber n
           /\ checks_echo (GetFlashConfigPage 5) = true
           /\ r_command (answer false Sim.header (GetFlashConfigPage 5) Scenario.page_7)
              = op_command (GetFlashConfigPage 5)
           /\ answer_len false Sim.header (GetFlashConfigPage 5) Scenario.page_7
              = op_recv_len Sim.header (GetFlashConfigPage 5)).
Proof.
  assert (Hrun : run false Sim.header (GetFlashConfigPage 5) Scenario.page_7
    = Exit (BadPageNumber 7)
        (after_send false Sim.header (GetFlashConfigPage 5) Scenario.page_7))
    by reflexivity.
  split; [exact Hrun |].
  exact (proj2 (exit_reason false Sim.header (GetFlashConfigPage 5)
                  Scenario.page_7 _ _ Hrun)).
Defined.

(** The object of a [uint16_t] variable that the macro has been applied
    to holds the value high byte first, on either host. *)
Lemma u16_bytes_swap (be : bool) (v : Z) :
  0 <= v < 65536 ->
  u16_bytes be (APP_SWAP_ENDIAN_16 be v) = [v / 256; v mod 256].
Proof.
  intros Hv. destruct (uint16_split v Hv) as (Hsplit & Hhi & Hlo).
  unfold u16_bytes, store_u16. destruct be; [reflexivity |].
  rewrite Hsplit at 1 2. rewrite swap_bytes by assumption. unfold wire_u16.
  simpl. f_equal; [| f_equal].
  - symmetry. apply Z.mod_unique with (v mod 256); lia.
  - symmetry. apply Z.div_unique with (v / 256); lia.
Qed.

(** X5.  The flash page request and the flash sector erase put the page
    number on the wire high byte first, in a two-byte frame, whatever the
    byte order of the host. *)
Theorem page_request_is_big_endian
    (be : bool) (h : app_h) (page : Z) (st : link) :
  0 <= page < 65536 ->
  sent (link_of (run be h (GetFlashConfigPage page) st))
    = sent st ++ [Frame (chr "f") [page / 256; page mod 256] 2]
  /\ sent (link_of (run be h (EraseFlashConfigSector page) st))
     = sent st ++ [Frame (chr "E") [page / 256; page mod 256] 2].
Proof.
  intros Hpage. rewrite !run_sends. unfold after_send. cbn [sent op_frame].
  rewrite u16_bytes_swap by assumption. split; reflexivity.
Qed.

Lemma page_request_is_big_endian_witness :
  0 <= 258 < 65536
  /\ sent (link_of (run false Sim.header (GetFlashConfigPage 258) Scenario.page_5))
     = [Frame (chr "f") [1; 2] 2].
Proof.
  split; [lia |].
  exact (proj1 (page_request_is_big_endian false Sim.header 258 Scenario.page_5
                  ltac:(lia))).
Defined.

(** X6.  When the flash page request returns, the page handed to the
    caller has the expected size, its page-number field holds, in host
    order, the page number that was requested, and every other byte is
    the byte the device sent. *)
Theorem flash_page_postcondition
    (be : bool) (h : app_h) (page : Z) (st : link) (res : result) (l : link) :
  0 <= page < 65536 ->
  run be h (GetFlashConfigPage page) st = Return res l ->
  let off := offsetof_AppFlashConfigPageType_pageNumber h in
  let payload := r_payload (answer be h (GetFlashConfigPage page) st) in
  exists config,
    res = RObject config
    /\ load_u16 be config off = page
    /\ Z.of_nat (length config) = uint16 (sizeof_AppFlashConfigPageType h)
    /\ forall i, i <> off -> i <> S off -> config !! i = payload !! i.
Proof.
  intros Hpage Hrun off payload. rewrite run_unfold in Hrun.
  destruct (negb (r_command _ =? _)) in Hrun; [discriminate |].
  destruct (Z.eqb_spec (answer_len be h (GetFlashConfigPage page) st)
              (op_recv_len h (GetFlashConfigPage page))) as [Hlen | Hlen];
    [| discriminate].
  cbn [negb] in Hrun. rewrite (take_all_of_len _ _ Hlen) in Hrun.
  cbn [finish] in Hrun. fold off payload in Hrun.
  rewrite swap_twice in Hrun by assumption. unfold ExitWithError, ret in Hrun.
  destruct (Z.eqb_spec (load_u16 be (swap_field be payload off) off) page)
    as [Heq | Hne]; [| discriminate].
  injection Hrun as <- _. eexists. split; [reflexivity |].
  split; [exact Heq |]. split.
  - rewrite swap_field_length. exact Hlen.
  - intros i Hi0 Hi1. apply swap_field_other; assumption.
Qed.

Lemma flash_page_postcondition_witness :
  0 <= 5 < 65536
  /\ exists config,
       run false Sim.header (GetFlashConfigPage 5) Scenario.page_5
       = Return (RObject config)
           (after_send false Sim.header (GetFlashConfigPage 5) Scenario.page_5)
       /\ load_u16 false config 0 = 5.
Proof.
  split; [lia |].
  destruct (flash_page_postcondition false Sim.header 5 Scenario.page_5
              (RObject [5; 0; 17; 18; 19; 20])
              (after_send false Sim.header (GetFlashConfigPage 5) Scenario.page_5)
              ltac:(lia) eq_refl) as (config & Hres & Hpage & _).
  exists config. split; [| exact Hpage].
  injection Hres as <-. reflexivity.
Defined.

(** X7.  The flash clock configuration set compares the page number of
    the two-byte answer, brought to host order, with the page number of
    the caller's record: on a difference it exits with the
    bad-page-number error naming the echoed value, and on agreement it
    returns, the record being as it was passed in. *)
Theorem clock_config_echo_is_checked
    (be : bool) (h : app_h) (config : list Z) (st : link) :
  let op := SetFlashClockConfig config in
  let off := offsetof_AppFlashClockConfigType_pageNumber h in
  let payload := r_payload (answer be h op st) in
  bytes_ok config = true ->
  (off + 2 <= length config)%nat ->
  r_command (answer be h op st) = chr "F" ->
  length payload = 2%nat ->
  bytes_ok payload = true ->
  (wire_field payload 0 <> load_u16 be config off ->
   run be h op st = Exit (BadPageNumber (wire_field payload 0)) (after_send be h op st))
  /\ (wire_field payload 0 = load_u16 be config off ->
      run be h op st = Return (RObject config) (after_send be h op st)).
Proof.
  intros op off payload Hcfg Hoff Hcmd Hshape Hok.
  assert (Hargs : args_ok be h op = true).
  { cbn [args_ok op]. fold off. rewrite Hcfg. apply Nat.leb_le in Hoff.
    rewrite Hoff. reflexivity. }
  assert (Hlen : answer_len be h op st = op_recv_len h op).
  { unfold answer_len. fold payload. rewrite Hshape. reflexivity. }
  split.
  - intros Hne. apply (run_echo_mismatch be h op st); try assumption; reflexivity.
  - intros Heq.
    destruct (run_success be h op st) as (res & Hrun & Hdec); try assumption.
    + intros _. exact Heq.
    + cbn [decodes op] in Hdec. rewrite Hrun, Hdec. reflexivity.
Qed.

Lemma clock_config_echo_is_checked_witness :
  bytes_ok Scenario.clock_config_42 = true
  /\ run false Sim.header (SetFlashClockConfig Scenario.clock_config_42)
       Scenario.clock_page_42
     = Return (RObject Scenario.clock_config_42)
         (after_send false Sim.header (SetFlashClockConfig Scenario.clock_config_42)
            Scenario.clock_page_42).
Proof.
  split; [reflexivity |].
  assert (Hoff : (2 + 2 <= length Scenario.clock_config_42)%nat) by (simpl; lia).
  exact (proj2 (clock_config_echo_is_checked false Sim.header
                  Scenario.clock_config_42 Scenario.clock_page_42
                  eq_refl Hoff eq_refl eq_refl eq_refl) eq_refl).
Defined.

Lemma bytes_ok_pair (hi lo : Z) :
  0 <= hi < 256 -> 0 <= lo < 256 -> bytes_ok [hi; lo] = true.
Proof.
  intros Hhi Hlo. unfold bytes_ok. simpl.
  rewrite (proj2 (is_byte_spec hi) Hhi), (proj2 (is_byte_spec lo) Hlo). reflexivity.
Qed.

(** X8.  Sending and receiving agree on the byte order: a device that
    sends back the tag and the buffer of the frame it received makes the
    flash sector erase return for every page number, on either host. *)
Theorem erase_round_trip (be : bool) (h : app_h) (startPage : Z) (st : link) :
  0 <= startPage < 65536 ->
  (forall frames f, last frames = Some f ->
                    device st frames = Reply (f_command f) (f_buf f)) ->
  run be h (EraseFlashConfigSector startPage) st
    = Return RVoid (after_send be h (EraseFlashConfigSector startPage) st).
Proof.
  intros Hpage Hdev.
  destruct (uint16_split startPage Hpage) as (Hsplit & Hhi & Hlo).
  assert (Hans : answer be h (EraseFlashConfigSector startPage) st
                 = Reply (chr "E") [startPage / 256; startPage mod 256]).
  { unfold answer.
    rewrite (Hdev _ (op_frame be h (EraseFlashConfigSector startPage)))
      by apply last_snoc.
    cbn [op_frame f_command f_buf]. rewrite u16_bytes_swap by assumption.
    reflexivity. }
  destruct (run_success be h (EraseFlashConfigSector startPage) st)
    as (res & Hrun & Hdec).
  - cbn [args_ok]. apply is_uint16_spec. assumption.
  - rewrite Hans. reflexivity.
  - unfold answer_len. rewrite Hans. reflexivity.
  - rewrite Hans. cbn [r_payload]. apply bytes_ok_pair; assumption.
  - intros _. rewrite Hans. cbn [r_payload echoed_page requested_page].
    unfold wire_field, load_u16. simpl. symmetry. exact Hsplit.
  - cbn [decodes] in Hdec. rewrite Hrun, Hdec. reflexivity.
Qed.

Lemma erase_round_trip_witness :
  0 <= 4660 < 65536
  /\ run false Sim.header (EraseFlashConfigSector 4660) loopback
     = Return RVoid (after_send false Sim.header (EraseFlashConfigSector 4660) loopback).
Proof.
  split; [lia |].
  apply (erase_round_trip false Sim.header 4660 loopback); [lia |].
  intros frames f Hlast. simpl. rewrite Hlast. reflexivity.
Defined.

(** X9.  The byte order of the host cannot be observed through the
    flash sector erase: for every page number it sends the same frame,
    and returns or exits with the same error, on a big-endian and on a
    little-endian host, whatever header each of them is compiled with. *)
Theorem erase_is_host_independent
    (h1 h2 : app_h) (startPage : Z) (st : link) :
  0 <= startPage < 65536 ->
  bytes_ok (r_payload (answer false h2 (EraseFlashConfigSector startPage) st)) = true ->
  run true h1 (EraseFlashConfigSector startPage) st
  = run false h2 (EraseFlashConfigSector startPage) st.
Proof.
  intros Hpage Hok. set (op := EraseFlashConfigSector startPage) in *.
  assert (Hargs1 : args_ok true h1 op = true) by (apply is_uint16_spec; assumption).
  assert (Hargs2 : args_ok false h2 op = true) by (apply is_uint16_spec; assumption).
  assert (Hframe : op_frame true h1 op = op_frame false h2 op).
  { subst op. cbn [op_frame]. rewrite !u16_bytes_swap by assumption. reflexivity. }
  assert (Hans : answer true h1 op st = answer false h2 op st)
    by (unfold answer; rewrite Hframe; reflexivity).
  rewrite !run_unfold. unfold answer_len, after_send. rewrite Hans, Hframe.
  change (op_recv_len h1 op) with (op_recv_len h2 op).
  destruct (negb (r_command _ =? _)); [reflexivity |].
  destruct (Z.eqb_spec (Z.of_nat (length (r_payload (answer false h2 op st))))
              (op_recv_len h2 op)) as [Hlen | Hlen]; [| reflexivity].
  cbn [negb]. rewrite (take_all_of_len _ _ Hlen).
  rewrite (finish_echo true h1 op), (finish_echo false h2 op);
    try assumption; reflexivity.
Qed.

Lemma erase_is_host_independent_witness :
  0 <= 5 < 65536
  /\ run true Sim.header (EraseFlashConfigSector 5) loopback
     = run false Sim.header (EraseFlashConfigSector 5) loopback
  /\ run false Sim.header (EraseFlashConfigSector 5) loopback
     = Return RVoid (after_send false Sim.header (EraseFlashConfigSector 5) loopback).
Proof.
  split; [lia |]. split; [| reflexivity].
  exact (erase_is_host_independent Sim.header Sim.header 5 loopback
           ltac:(lia) eq_refl).
Defined.

(** X10.  No two operations share a command tag: operations with the
    same tag are the same operation up to the arguments of the call, so
    the tag of an answer identifies the request it answers.  Every tag
    fits the [uint8_t] it is passed as. *)
Theorem command_tags_are_distinct (op1 op2 : operation) :
  (op_command op1 = op_command op2 -> forget_args op1 = forget_args op2)
  /\ 0 <= op_command op1 < 256.
Proof.
  split.
  - destruct op1, op2; cbn [forget_args]; intros Htag;
      first [reflexivity | exfalso; vm_compute in Htag; discriminate Htag].
  - destruct op1; vm_compute; split; congruence.
Qed.

(** A value below -189.0 is not above +189.0: the two tests of
    [AppSetRtcCalibration] exclude each other. *)
Lemma below_limit_not_above (p : spec_float) :
  SFltb p (SFopp APP_PPM_LIMIT) = true -> SFltb APP_PPM_LIMIT p = false.
Proof.
  destruct p as [s | s | | s m e]; try destruct s; simpl;
    try discriminate; reflexivity.
Qed.

(** Negating both operands of the IEEE comparison exchanges them. *)
Lemma SFcompare_opp (x y : spec_float) :
  SFcompare (SFopp x) (SFopp y) = SFcompare y x.
Proof.
  destruct x as [s1 | s1 | | s1 m1 e1], y as [s2 | s2 | | s2 m2 e2];
    try destruct s1; try destruct s2; simpl; try reflexivity; f_equal;
    rewrite (Z.compare_antisym e1 e2);
    destruct (e1 ?= e2); simpl; try reflexivity;
    first [ apply (Pos.compare_cont_antisym m1 m2 Eq)
          | symmetry; apply (Pos.compare_cont_antisym m1 m2 Eq)
          | apply (Pos.compare_cont_antisym m2 m1 Eq)
          | symmetry; apply (Pos.compare_cont_antisym m2 m1 Eq) ].
Qed.

(** X11.  Limiting is idempotent: a value that has been limited passes
    the limit unchanged, so the value transmitted is a fixed point of the
    limit, also for an input that is not a number. *)
Theorem limit_ppm_idempotent (p : spec_float) :
  limit_ppm (limit_ppm p) = limit_ppm p.
Proof.
  destruct (SFltb APP_PPM_LIMIT p) eqn:Hhi.
  { assert (H : limit_ppm p = APP_PPM_LIMIT)
      by (unfold limit_ppm; rewrite Hhi; reflexivity).
    rewrite H. reflexivity. }
  destruct (SFltb p (SFopp APP_PPM_LIMIT)) eqn:Hlo.
  { assert (H : limit_ppm p = SFopp APP_PPM_LIMIT)
      by (unfold limit_ppm; rewrite Hhi, Hlo; reflexivity).
    rewrite H. reflexivity. }
  assert (H : limit_ppm p = p)
    by (unfold limit_ppm; rewrite Hhi, Hlo; reflexivity).
  rewrite !H. reflexivity.
Qed.

(** X12.  Every value above +189.0, plus infinity included, is
    transmitted as exactly +189.0, and every value below -189.0, minus
    infinity included, as exactly -189.0; the two cases exclude each
    other, so the order of the two tests does not matter. *)
Theorem limit_ppm_saturates (p : spec_float) :
  (SFltb APP_PPM_LIMIT p = true -> limit_ppm p = APP_PPM_LIMIT)
  /\ (SFltb p (SFopp APP_PPM_LIMIT) = true -> limit_ppm p = SFopp APP_PPM_LIMIT)
  /\ (SFltb APP_PPM_LIMIT p = true -> SFltb p (SFopp APP_PPM_LIMIT) = true -> False)
  /\ limit_ppm (S754_infinity false) = APP_PPM_LIMIT
  /\ limit_ppm (S754_infinity true) = SFopp APP_PPM_LIMIT.
Proof.
  split; [| split; [| split; [| split; reflexivity]]].
  - intros Hhi. unfold limit_ppm. rewrite Hhi. reflexivity.
  - intros Hlo. unfold limit_ppm.
    rewrite (below_limit_not_above p Hlo), Hlo. reflexivity.
  - intros Hhi Hlo. rewrite (below_limit_not_above p Hlo) in Hhi. discriminate.
Qed.

(** X13.  The limit is symmetric about zero: limiting the negated value
    gives the negated limited value. *)
Theorem limit_ppm_odd (p : spec_float) :
  limit_ppm (SFopp p) = SFopp (limit_ppm p).
Proof.
  assert (Hhi : SFltb APP_PPM_LIMIT (SFopp p) = SFltb p (SFopp APP_PPM_LIMIT)).
  { unfold SFltb. change APP_PPM_LIMIT with (SFopp (SFopp APP_PPM_LIMIT)) at 1.
    rewrite SFcompare_opp. reflexivity. }
  assert (Hlo : SFltb (SFopp p) (SFopp APP_PPM_LIMIT) = SFltb APP_PPM_LIMIT p).
  { unfold SFltb. rewrite SFcompare_opp. reflexivity. }
  unfold limit_ppm. rewrite Hhi, Hlo.
  destruct (SFltb p (SFopp APP_PPM_LIMIT)) eqn:Hbelow.
  - rewrite (below_limit_not_above p Hbelow). reflexivity.
  - destruct (SFltb APP_PPM_LIMIT p); reflexivity.
Qed.

(** *** The further properties on the simulated device *)

Lemma send_and_receive_returns_iff_witness :
  AppSendAndReceive (chr "v") [] 0 6 Scenario.version_1_2_3
  = Return [0; 1; 0; 2; 0; 3] (Link [Frame (chr "v") [] 0] (device Scenario.version_1_2_3)).
Proof.
  apply (proj2 (send_and_receive_returns_iff (chr "v") [] 0 6 Scenario.version_1_2_3
                  [0; 1; 0; 2; 0; 3]
                  (Link [Frame (chr "v") [] 0] (device Scenario.version_1_2_3)))).
  repeat split; reflexivity.
Defined.

Lemma command_tags_are_distinct_witness :
  op_command (SetIntensity [1]) = op_command (SetIntensity [2; 3])
  /\ forget_args (SetIntensity [1]) = forget_args (SetIntensity [2; 3]).
Proof.
  split; [reflexivity |].
  exact (proj1 (command_tags_are_distinct (SetIntensity [1]) (SetIntensity [2; 3]))
           eq_refl).
Defined.

Lemma limit_ppm_saturates_witness :
  SFltb APP_PPM_LIMIT ppm_250 = true /\ limit_ppm ppm_250 = APP_PPM_LIMIT.
Proof.
  split; [reflexivity |].
  exact (proj1 (limit_ppm_saturates ppm_250) eq_refl).
Defined.
